(** * Boston Airbnb dashboard: the filter engine and the neighbourhood aggregate

    A shallow embedding of [finalproject.py]: the function [apply_filters]
    (lines 14-26) and the dashboard aggregate
    [groupby("neighbourhood")["price"].mean().idxmax()/.idxmin()]
    (lines 65-66), with the pandas operations they are built from, and the
    data each of the four tabs computes from the sidebar widgets (lines
    74-167).  The charts, the map and the page themselves (matplotlib,
    pydeck, streamlit) are outside the embedding.

    Conventions of the embedding.
    - A DataFrame is the list of its rows in index order; a column is the
      list of one field of the rows; a boolean mask is a [list bool].
    - Numbers of the [price] column are rationals ([Q]): pandas computes in
      binary floating point, the embedding in exact arithmetic.  A float
      that may be NaN (the result of [Series.mean], [Series.min]) is an
      [option Q], with [None] for NaN.
    - Text is a [string] read as ASCII; letter case is the case of the
      letters A-Z and a-z.
    - A missing value of the [name] column (NaN after [read_csv]) is [None].
      The column is a text column (dtype [object]), as [read_csv] makes it
      when the file has a name: a file without any name gives a float
      column, on which the [.str] accessor of line 23 raises
      [AttributeError]; that case is not embedded, and no statement below
      says of such a dataset that a text search returns.
    - A Python call that can raise returns a sum: [inl e] when the exception
      [e] is raised, [inr v] when [v] is returned. *)

From Stdlib Require Import List String Ascii Bool ZArith QArith Lia.
From Stdlib Require Import Sorted OrderedTypeEx Qround Lqa.
Import ListNotations.

Local Open Scope string_scope.
Local Open Scope list_scope.

(** ** Data model *)

Module Listing.

(** Modelled from the spec: the schema of [listings.csv], which is not part
    of the source.  One row of the dataset, with the columns the program
    reads; [name] is the only column the program reads with a policy for
    missing values ([na=False]). *)
Record t : Type := mk {
  name : option string;
  neighbourhood : string;
  room_type : string;
  price : Q;
  availability_365 : Z;
  number_of_reviews : Z;
  latitude : Q;
  longitude : Q
}.

End Listing.

Definition DataFrame : Type := list Listing.t.

(** Modelled from the spec: the ranges section 3 gives to the attributes of
    a Listing (price non-negative, availability between 0 and 365 days,
    review count non-negative). *)
Definition well_formed (r : Listing.t) : Prop :=
  (0 <= Listing.price r)%Q /\
  (0 <= Listing.availability_365 r <= 365)%Z /\
  (0 <= Listing.number_of_reviews r)%Z.

(** ** pandas: columns, masks and boolean indexing *)

(** [df[c]] *)
Definition col {A : Type} (c : Listing.t -> A) (df : DataFrame) : list A :=
  map c df.

(** [s >= v] and [s <= v] on a float column *)
Definition ge_Q (s : list Q) (v : Q) : list bool := map (fun x => Qle_bool v x) s.
Definition le_Q (s : list Q) (v : Q) : list bool := map (fun x => Qle_bool x v) s.

(** [s >= v] and [s <= v] on an integer column *)
Definition ge_Z (s : list Z) (v : Z) : list bool := map (fun x => (v <=? x)%Z) s.
Definition le_Z (s : list Z) (v : Z) : list bool := map (fun x => (x <=? v)%Z) s.

(** [s == v] on a text column *)
Definition eq_str (s : list string) (v : string) : list bool :=
  map (fun x => String.eqb x v) s.

(** [s.isin(values)] *)
Definition isin (s : list string) (values : list string) : list bool :=
  map (fun x => existsb (String.eqb x) values) s.

(** [m1 & m2], elementwise *)
Fixpoint mask_and (m1 m2 : list bool) : list bool :=
  match m1, m2 with
  | b1 :: m1', b2 :: m2' => (b1 && b2) :: mask_and m1' m2'
  | _, _ => []
  end.

Infix "&" := mask_and (at level 40, left associativity).

(** [df[mask]]: the rows whose mask entry is [True], in index order *)
Fixpoint loc {A : Type} (df : list A) (mask : list bool) : list A :=
  match df, mask with
  | r :: df', b :: mask' => if b then r :: loc df' mask' else loc df' mask'
  | _, _ => []
  end.

(** [sum] of a float column *)
Definition Series_sum (s : list Q) : Q := fold_right Qplus 0%Q s.

(** [s.mean()]: NaN on an empty column *)
Definition Series_mean (s : list Q) : option Q :=
  match s with
  | [] => None
  | _ :: _ => Some (Series_sum s / inject_Z (Z.of_nat (List.length s)))%Q
  end.

(** [s.min()] and [s.max()]: NaN on an empty column *)
Fixpoint Series_min (s : list Q) : option Q :=
  match s with
  | [] => None
  | x :: s' =>
      match Series_min s' with
      | None => Some x
      | Some m => Some (if Qle_bool x m then x else m)
      end
  end.

Fixpoint Series_max (s : list Q) : option Q :=
  match s with
  | [] => None
  | x :: s' =>
      match Series_max s' with
      | None => Some x
      | Some m => Some (if Qle_bool m x then x else m)
      end
  end.

(** [df.empty] *)
Definition empty {A : Type} (df : list A) : bool :=
  match df with [] => true | _ :: _ => false end.

(** ** The filter engine *)

Section FilterEngine.

(** The exceptions the regular-expression library can raise. *)
Context {E : Type}.

(** [re.compile(pat, re.IGNORECASE)] followed by
    [lambda x: pat.search(x) is not None]: either the exception raised
    when the pattern is compiled, or the search predicate. *)
Variable re_compile : string -> E + (string -> bool).

(** [s.str.contains(pat, case=False, na=False)] on a text column.  [regex]
    is left at its default [True]: [pat] is compiled as a regular
    expression, once, and searched for in every value present; a missing
    value gives [na]. *)
Definition str_contains (s : list (option string)) (pat : string)
  : E + list bool :=
  match re_compile pat with
  | inl e => inl e
  | inr search =>
      inr (map (fun x => match x with
                         | Some v => search v
                         | None => false
                         end) s)
  end.

(** [apply_filters], lines 14-26.  The three optional filters are guarded
    by Python truthiness: [None], the empty list and the empty string
    switch a filter off. *)
Definition apply_filters (df : DataFrame) (min_price max_price : Q)
    (neighborhoods : option (list string)) (room_type : option string)
    (min_avail max_avail min_reviews : Z) (search_text : option string)
  : E + (DataFrame * option Q * nat) :=
  let filtered :=
    loc df (ge_Q (col Listing.price df) min_price
            & le_Q (col Listing.price df) max_price
            & ge_Z (col Listing.availability_365 df) min_avail
            & le_Z (col Listing.availability_365 df) max_avail
            & ge_Z (col Listing.number_of_reviews df) min_reviews) in
  let filtered :=
    match neighborhoods with
    | Some (n :: ns) =>
        loc filtered (isin (col Listing.neighbourhood filtered) (n :: ns))
    | _ => filtered
    end in
  let filtered :=
    match room_type with
    | Some (String c cs) =>
        loc filtered (eq_str (col Listing.room_type filtered) (String c cs))
    | _ => filtered
    end in
  let text_filtered :=
    match search_text with
    | Some (String c cs) =>
        match str_contains (col Listing.name filtered) (String c cs) with
        | inl e => inl e
        | inr mask => inr (loc filtered mask)
        end
    | _ => inr filtered
    end in
  match text_filtered with
  | inl e => inl e
  | inr filtered =>
      let avg_price :=
        if negb (empty filtered)
        then Series_mean (col Listing.price filtered)
        else Some 0%Q in
      let total_count := List.length filtered in
      inr (filtered, avg_price, total_count)
  end.

End FilterEngine.

(** The guard of line 22 together with the compilation done by line 23:
    no search predicate when [search_text] is falsy, the compiled one
    otherwise, or the exception raised by the compilation. *)
Definition compile_text {E : Type} (re_compile : string -> E + (string -> bool))
    (search_text : option string) : E + option (string -> bool) :=
  match search_text with
  | Some (String c cs) =>
      match re_compile (String c cs) with
      | inl e => inl e
      | inr search => inr (Some search)
      end
  | _ => inr None
  end.

(** The row-level reading of the masks of [apply_filters]: the conjunction
    of the tests a row goes through, [search] being the compiled text
    search when there is one. *)
Definition keep (min_price max_price : Q)
    (neighborhoods : option (list string)) (room_type : option string)
    (min_avail max_avail min_reviews : Z) (search : option (string -> bool))
    (r : Listing.t) : bool :=
  Qle_bool min_price (Listing.price r)
  && Qle_bool (Listing.price r) max_price
  && (min_avail <=? Listing.availability_365 r)%Z
  && (Listing.availability_365 r <=? max_avail)%Z
  && (min_reviews <=? Listing.number_of_reviews r)%Z
  && match neighborhoods with
     | Some (n :: ns) => existsb (String.eqb (Listing.neighbourhood r)) (n :: ns)
     | _ => true
     end
  && match room_type with
     | Some (String c cs) => String.eqb (Listing.room_type r) (String c cs)
     | _ => true
     end
  && match search with
     | Some f => match Listing.name r with Some v => f v | None => false end
     | None => true
     end.

(** Lines 24-26: what [apply_filters] returns on the rows it is left with. *)
Definition summary (filtered : DataFrame) : DataFrame * option Q * nat :=
  (filtered,
   if negb (empty filtered)
   then Series_mean (col Listing.price filtered)
   else Some 0%Q,
   List.length filtered).

(** Python truthiness of the optional arguments: [None], the empty list and
    the empty string are falsy. *)
Definition truthy_list {A : Type} (o : option (list A)) : bool :=
  match o with Some (_ :: _) => true | _ => false end.

Definition truthy_str (o : option string) : bool :=
  match o with Some (String _ _) => true | _ => false end.

(** ** A fragment of Python's [re], compiled with [re.IGNORECASE]

    Patterns made of ordinary characters, the dot, and the classes [\d] and
    [\D]; a pattern of this fragment that ends in a lone backslash is
    rejected by [re.compile].  Every other use of a special character is
    outside the fragment. *)

Inductive re_exn : Type :=
| re_error     (** [re.error], raised by [re.compile] *)
| unmodelled.  (** no Python exception: the pattern is outside the fragment *)

Inductive atom : Type :=
| Lit (c : ascii)  (** an ordinary character, matched without regard to case *)
| AnyChar          (** [.]: any character but a newline *)
| Digit            (** [\d] *)
| NotDigit.        (** [\D] *)

(** The characters with a meaning of their own in a pattern. *)
Definition special (c : ascii) : bool :=
  existsb (Ascii.eqb c) (list_ascii_of_string ".^$*+?{}[]\|()").

Fixpoint parse (pat : string) : re_exn + list atom :=
  match pat with
  | EmptyString => inr []
  | String c rest =>
      if Ascii.eqb c "\" then
        match rest with
        | EmptyString => inl re_error
        | String d rest' =>
            if Ascii.eqb d "d" then
              match parse rest' with inl e => inl e | inr r => inr (Digit :: r) end
            else if Ascii.eqb d "D" then
              match parse rest' with inl e => inl e | inr r => inr (NotDigit :: r) end
            else inl unmodelled
        end
      else if Ascii.eqb c "." then
        match parse rest with inl e => inl e | inr r => inr (AnyChar :: r) end
      else if special c then inl unmodelled
      else
        match parse rest with inl e => inl e | inr r => inr (Lit c :: r) end
  end.

Definition is_upper (c : ascii) : bool :=
  (65 <=? nat_of_ascii c)%nat && (nat_of_ascii c <=? 90)%nat.

Definition is_lower (c : ascii) : bool :=
  (97 <=? nat_of_ascii c)%nat && (nat_of_ascii c <=? 122)%nat.

Definition is_digit (c : ascii) : bool :=
  (48 <=? nat_of_ascii c)%nat && (nat_of_ascii c <=? 57)%nat.

Definition lower (c : ascii) : ascii :=
  if is_upper c then ascii_of_nat (nat_of_ascii c + 32) else c.

Definition upper (c : ascii) : ascii :=
  if is_lower c then ascii_of_nat (nat_of_ascii c - 32) else c.

Definition atom_matches (a : atom) (c : ascii) : bool :=
  match a with
  | Lit l => Ascii.eqb (lower l) (lower c)
  | AnyChar => negb (Ascii.eqb c "010")
  | Digit => is_digit c
  | NotDigit => negb (is_digit c)
  end.

(** The atoms match the characters at the head of [s], one each. *)
Fixpoint match_here (r : list atom) (s : string) : bool :=
  match r, s with
  | [], _ => true
  | a :: r', String c s' => atom_matches a c && match_here r' s'
  | _ :: _, EmptyString => false
  end.

(** [pat.search(s) is not None]: a match starts somewhere in [s]. *)
Fixpoint search (r : list atom) (s : string) : bool :=
  match_here r s
  || match s with
     | EmptyString => false
     | String _ s' => search r s'
     end.

Definition py_re_compile (pat : string) : re_exn + (string -> bool) :=
  match parse pat with
  | inl e => inl e
  | inr r => inr (search r)
  end.

(** ** The neighbourhood aggregate, lines 65-66 *)

(** The group keys of [groupby]: the distinct values, sorted. *)
Fixpoint insert_key (k : string) (ks : list string) : list string :=
  match ks with
  | [] => [k]
  | k' :: ks' =>
      match String.compare k k' with
      | Lt => k :: ks
      | Eq => ks
      | Gt => k' :: insert_key k ks'
      end
  end.

Definition group_keys (s : list string) : list string :=
  fold_right insert_key [] s.

(** [df.groupby("neighbourhood")["price"].mean()]: a series indexed by the
    group keys. *)
Definition groupby_neighbourhood_price_mean (df : DataFrame)
  : list (string * option Q) :=
  map (fun k =>
         (k, Series_mean
               (col Listing.price
                  (loc df (eq_str (col Listing.neighbourhood df) k)))))
      (group_keys (col Listing.neighbourhood df)).

(** The first label with the largest (smallest) value that is not NaN,
    with that value. *)
Fixpoint argmax (s : list (string * option Q)) : option (string * Q) :=
  match s with
  | [] => None
  | (k, v) :: s' =>
      match v, argmax s' with
      | None, best => best
      | Some x, None => Some (k, x)
      | Some x, Some (k', y) => if Qle_bool y x then Some (k, x) else Some (k', y)
      end
  end.

Fixpoint argmin (s : list (string * option Q)) : option (string * Q) :=
  match s with
  | [] => None
  | (k, v) :: s' =>
      match v, argmin s' with
      | None, best => best
      | Some x, None => Some (k, x)
      | Some x, Some (k', y) => if Qle_bool x y then Some (k, x) else Some (k', y)
      end
  end.

(** [s.idxmax()] and [s.idxmin()]; [None] when there is no label to return
    (pandas raises [ValueError] on an empty series). *)
Definition idxmax (s : list (string * option Q)) : option string :=
  option_map fst (argmax s).

Definition idxmin (s : list (string * option Q)) : option string :=
  option_map fst (argmin s).

Definition priciest_neighborhood (airbnb_data : DataFrame) : option string :=
  idxmax (groupby_neighbourhood_price_mean airbnb_data).

Definition cheapest_neighborhood (airbnb_data : DataFrame) : option string :=
  idxmin (groupby_neighbourhood_price_mean airbnb_data).

(** ** The words of the specification *)

(** The spec's text search: [needle] occurs in [hay] as a substring, letter
    case ignored. *)
Fixpoint prefix_ci (needle hay : string) : bool :=
  match needle, hay with
  | EmptyString, _ => true
  | String a needle', String c hay' =>
      Ascii.eqb (lower a) (lower c) && prefix_ci needle' hay'
  | String _ _, EmptyString => false
  end.

Fixpoint contains_ci (needle hay : string) : bool :=
  prefix_ci needle hay
  || match hay with
     | EmptyString => false
     | String _ hay' => contains_ci needle hay'
     end.

(** A search text without special characters: plain text. *)
Definition plain (pat : string) : bool :=
  forallb (fun c => negb (special c)) (list_ascii_of_string pat).

(** A string with its letters in upper case. *)
Fixpoint to_upper (s : string) : string :=
  match s with
  | EmptyString => EmptyString
  | String c s' => String (upper c) (to_upper s')
  end.

(** [l1] is [l2] with some elements removed: the same elements, in the same
    relative order. *)
Inductive subsequence {A : Type} : list A -> list A -> Prop :=
| subsequence_nil : subsequence [] []
| subsequence_take x l1 l2 : subsequence l1 l2 -> subsequence (x :: l1) (x :: l2)
| subsequence_drop x l1 l2 : subsequence l1 l2 -> subsequence l1 (x :: l2).

(** ** The example dataset of the specification *)

Definition cozy_loft : Listing.t :=
  Listing.mk (Some "Cozy Loft") "Back Bay" "Entire home/apt"
             120 200 10 42.35 (-71.08).

Definition shared_room : Listing.t :=
  Listing.mk (Some "Shared Room") "Allston" "Private room"
             40 300 2 42.34 (-71.13).

Definition example : DataFrame := [cozy_loft; shared_room].

(** A listing whose name is missing. *)
Definition unnamed : Listing.t :=
  Listing.mk None "Allston" "Private room" 55 120 0 42.35 (-71.13).

(** The optional argument [o'] restricts no more than [o]: it is [o] itself
    or it is falsy. *)
Definition same_or_off_list (o' o : option (list string)) : Prop :=
  o' = o \/ truthy_list o' = false.

Definition same_or_off_str (o' o : option string) : Prop :=
  o' = o \/ truthy_str o' = false.

(** ** The dashboard figures of lines 63-64 *)

(** [len(airbnb_data)] *)
Definition total_listings (airbnb_data : DataFrame) : nat :=
  List.length airbnb_data.

(** [airbnb_data["price"].mean()] *)
Definition avg_price (airbnb_data : DataFrame) : option Q :=
  Series_mean (col Listing.price airbnb_data).

(** ** The sidebar and the tabs, lines 74-167 *)

(** [s.unique()]: the distinct values in order of first appearance. *)
Fixpoint unique (s : list string) : list string :=
  match s with
  | [] => []
  | x :: s' => x :: filter (fun y => negb (String.eqb y x)) (unique s')
  end.

(** [df.groupby(key)["price"].mean()] for a text column [key]. *)
Definition groupby_price_mean (key : Listing.t -> string) (df : DataFrame)
  : list (string * option Q) :=
  map (fun k =>
         (k, Series_mean
               (col Listing.price (loc df (eq_str (col key df) k)))))
      (group_keys (col key df)).

(** What a tab puts on the page: a warning, the message of a caught
    exception, or its content. *)
Inductive shown (E A : Type) : Type :=
| st_warning (msg : string)
| st_error (msg : string) (err : E)
| st_content (a : A).

Arguments st_warning {E A} msg.
Arguments st_error {E A} msg err.
Arguments st_content {E A} a.

(** Tab "Neighborhood Prices", lines 86-96.  The content is the table handed
    to [create_bar_chart]: one bar per row, labelled by the neighbourhood,
    as high as the mean price. *)
Definition neighborhood_prices_tab {E : Type} (airbnb_data : DataFrame)
    (chosen_neighborhoods : list string)
  : shown E (list (string * option Q)) :=
  match chosen_neighborhoods with
  | _ :: _ =>
      let neighborhood_data :=
        groupby_price_mean Listing.neighbourhood
          (loc airbnb_data
               (isin (col Listing.neighbourhood airbnb_data)
                     chosen_neighborhoods)) in
      if empty neighborhood_data
      then st_warning "No data matches your criteria."
      else st_content neighborhood_data
  | [] => st_warning "Please select at least one neighborhood."
  end.

(** Tab "Room Type Prices", lines 102-103: the table [room_avg] handed to
    [create_bar_chart]. *)
Definition room_avg (airbnb_data : DataFrame) (chosen_room_type : string)
  : list (string * option Q) :=
  let room_data :=
    if String.eqb chosen_room_type "All"
    then airbnb_data
    else loc airbnb_data
             (eq_str (col Listing.room_type airbnb_data) chosen_room_type) in
  groupby_price_mean Listing.room_type room_data.

(** The call of [apply_filters] made by the tabs "Price Filter" (lines
    114-117) and "Map View" (lines 141-143) with the values of the sidebar
    widgets: the two ends of the price and availability sliders, the list of
    the multiselect, the choice of the selectbox with ["All"] standing for
    no room type, and the text of the search box. *)
Definition sidebar_call {E : Type}
    (re_compile : string -> E + (string -> bool)) (airbnb_data : DataFrame)
    (price_range : Z * Z) (chosen_neighborhoods : list string)
    (chosen_room_type : string) (availability_range : Z * Z)
    (min_reviews : Z) (search_name : string)
  : E + (DataFrame * option Q * nat) :=
  apply_filters re_compile airbnb_data
                (inject_Z (fst price_range)) (inject_Z (snd price_range))
                (Some chosen_neighborhoods)
                (if String.eqb chosen_room_type "All"
                 then None else Some chosen_room_type)
                (fst availability_range) (snd availability_range)
                min_reviews (Some search_name).

(** The view and the layer of the map, lines 148-165. *)
Record Deck : Type := mk_deck {
  view_latitude : option Q;
  view_longitude : option Q;
  view_zoom : Z;
  layer_positions : list (Q * Q);
  layer_radius : Z
}.

(** Tab "Map View", lines 138-167. *)
Definition map_view_tab {E : Type}
    (re_compile : string -> E + (string -> bool)) (airbnb_data : DataFrame)
    (price_range : Z * Z) (chosen_neighborhoods : list string)
    (chosen_room_type : string) (availability_range : Z * Z)
    (min_reviews : Z) (search_name : string)
  : shown E Deck :=
  match sidebar_call re_compile airbnb_data price_range chosen_neighborhoods
                     chosen_room_type availability_range min_reviews
                     search_name with
  | inl err => st_error "Error generating map: " err
  | inr (map_data, _, _) =>
      if empty map_data
      then st_warning "No data available for map view."
      else st_content
             {| view_latitude := Series_mean (col Listing.latitude map_data);
                view_longitude := Series_mean (col Listing.longitude map_data);
                view_zoom := 11;
                layer_positions :=
                  map (fun r => (Listing.longitude r, Listing.latitude r))
                      map_data;
                layer_radius := 200 |}
  end.

(** [s.sort_values()] *)
Fixpoint insert_value (x : Q) (s : list Q) : list Q :=
  match s with
  | [] => [x]
  | y :: s' => if Qle_bool x y then x :: s else y :: insert_value x s'
  end.

Definition sort_values (s : list Q) : list Q := fold_right insert_value [] s.

(** [s.median()]: the middle value of the sorted column, or the mean of the
    two middle values; NaN on an empty column. *)
Definition Series_median (s : list Q) : option Q :=
  match s with
  | [] => None
  | _ :: _ =>
      let a := sort_values s in
      let n := List.length s in
      if Nat.even n
      then Some ((nth (n / 2 - 1) a 0 + nth (n / 2) a 0) / 2)%Q
      else Some (nth (n / 2) a 0%Q)
  end.

(** [s.quantile(q)] with the default linear interpolation: at position
    [q * (n - 1)] of the sorted column, between the two neighbouring
    values; NaN on an empty column. *)
Definition Series_quantile (s : list Q) (q : Q) : option Q :=
  match s with
  | [] => None
  | _ :: _ =>
      let a := sort_values s in
      let position := (q * inject_Z (Z.of_nat (List.length s) - 1))%Q in
      let below := nth (Z.to_nat (Qfloor position)) a 0%Q in
      let above := nth (Z.to_nat (Qceiling position)) a 0%Q in
      Some (below + (above - below) * (position - inject_Z (Qfloor position)))%Q
  end.

(** What the tab "Price Filter" writes, lines 121-130: the six columns of
    the filtered listings, the count, the median price and the two
    quartiles.  The standard deviation (a square root) and the histogram
    are not part of the embedding. *)
Record PriceFilterContent : Type := mk_content {
  listings_table : list (option string * string * Q * string * Z * Z);
  total : nat;
  median_price : option Q;
  percentile_25 : option Q;
  percentile_75 : option Q
}.

(** Tab "Price Filter", lines 111-135. *)
Definition price_filter_tab {E : Type}
    (re_compile : string -> E + (string -> bool)) (airbnb_data : DataFrame)
    (price_range : Z * Z) (chosen_neighborhoods : list string)
    (chosen_room_type : string) (availability_range : Z * Z)
    (min_reviews : Z) (search_name : string)
  : shown E PriceFilterContent :=
  match sidebar_call re_compile airbnb_data price_range chosen_neighborhoods
                     chosen_room_type availability_range min_reviews
                     search_name with
  | inl err => st_error "Error filtering data: " err
  | inr (filtered_listings, avg_listing_price, listing_count) =>
      if empty filtered_listings
      then st_warning "No results match your filters."
      else st_content
             {| listings_table :=
                  map (fun r => (Listing.name r, Listing.neighbourhood r,
                                 Listing.price r, Listing.room_type r,
                                 Listing.availability_365 r,
                                 Listing.number_of_reviews r))
                      filtered_listings;
                total := listing_count;
                median_price :=
                  Series_median (col Listing.price filtered_listings);
                percentile_25 :=
                  Series_quantile (col Listing.price filtered_listings)
                                  0.25;
                percentile_75 :=
                  Series_quantile (col Listing.price filtered_listings)
                                  0.75 |}
  end.

(** The example dataset with the unnamed listing added. *)
Definition three_listings : DataFrame := [cozy_loft; shared_room; unnamed].

(** What the tab "Price Filter" writes for the example dataset with the
    neighbourhood Allston chosen. *)
Definition allston_content : PriceFilterContent :=
  {| listings_table := [(Some "Shared Room", "Allston", 40%Q, "Private room",
                         300%Z, 2%Z)];
     total := 1;
     median_price := Series_median [40%Q];
     percentile_25 := Series_quantile [40%Q] 0.25;
     percentile_75 := Series_quantile [40%Q] 0.75 |}.

(** * Properties *)

(** ** Masks and boolean indexing are a filter pass *)

Lemma mask_and_map {A : Type} (p q : A -> bool) (l : list A) :
  map p l & map q l = map (fun x => p x && q x) l.
Proof.
  induction l as [|x l IH]; simpl; [reflexivity | now rewrite IH].
Qed.

Lemma loc_map {A : Type} (p : A -> bool) (l : list A) :
  loc l (map p l) = filter p l.
Proof.
  induction l as [|x l IH]; simpl; [reflexivity|].
  destruct (p x); now rewrite IH.
Qed.

Lemma filter_filter {A : Type} (p q : A -> bool) (l : list A) :
  filter q (filter p l) = filter (fun x => p x && q x) l.
Proof.
  induction l as [|x l IH]; simpl; [reflexivity|].
  destruct (p x); simpl; [destruct (q x)|]; now rewrite IH.
Qed.

Lemma filter_true {A : Type} (l : list A) : filter (fun _ => true) l = l.
Proof.
  induction l as [|x l IH]; simpl; [reflexivity | now rewrite IH].
Qed.

Lemma filter_all {A : Type} (p : A -> bool) (l : list A) :
  (forall x, In x l -> p x = true) -> filter p l = l.
Proof.
  induction l as [|x l IH]; simpl; intros H; [reflexivity|].
  rewrite (H x (or_introl eq_refl)), IH; [reflexivity|].
  intros y Hy; apply H; now right.
Qed.

Lemma filter_none {A : Type} (p : A -> bool) (l : list A) :
  (forall x, In x l -> p x = false) -> filter p l = [].
Proof.
  induction l as [|x l IH]; simpl; intros H; [reflexivity|].
  rewrite (H x (or_introl eq_refl)). apply IH.
  intros y Hy; apply H; now right.
Qed.

Lemma filter_idem {A : Type} (p : A -> bool) (l : list A) :
  filter p (filter p l) = filter p l.
Proof.
  apply filter_all. intros x Hx. now apply filter_In in Hx.
Qed.

Lemma filter_subsequence {A : Type} (p : A -> bool) (l : list A) :
  subsequence (filter p l) l.
Proof.
  induction l as [|x l IH]; simpl; [constructor|].
  destruct (p x); now constructor.
Qed.

Section FilterFacts.

Context {E : Type}.
Variable re_compile : string -> E + (string -> bool).
Variables min_price max_price : Q.
Variable neighborhoods : option (list string).
Variable room_type : option string.
Variables min_avail max_avail min_reviews : Z.
Variable search_text : option string.

Local Abbreviation run df :=
  (apply_filters re_compile df min_price max_price neighborhoods room_type
                 min_avail max_avail min_reviews search_text).

Local Abbreviation kept so :=
  (keep min_price max_price neighborhoods room_type
        min_avail max_avail min_reviews so).

(** [apply_filters] raises exactly when the search text is active and
    does not compile; otherwise it is one pass of [filter] with the
    conjunction of the active tests, followed by the two statistics. *)
Lemma apply_filters_filter (df : DataFrame) :
  run df =
  match compile_text re_compile search_text with
  | inl e => inl e
  | inr so => inr (summary (filter (kept so) df))
  end.
Proof.
  unfold apply_filters, summary, ge_Q, le_Q, ge_Z, le_Z, col.
  rewrite !map_map, !mask_and_map, loc_map.
  set (num := fun r : Listing.t => _ && _ && _ && _ && _).
  set (nbp := fun r : Listing.t =>
                match neighborhoods with
                | Some (n :: ns) =>
                    existsb (String.eqb (Listing.neighbourhood r)) (n :: ns)
                | _ => true
                end).
  set (rtp := fun r : Listing.t =>
                match room_type with
                | Some (String c cs) =>
                    String.eqb (Listing.room_type r) (String c cs)
                | _ => true
                end).
  assert (Hnb : forall f : DataFrame,
             match neighborhoods with
             | Some (n :: ns) =>
                 loc f (isin (map Listing.neighbourhood f) (n :: ns))
             | _ => f
             end = filter nbp f).
  { intros f. unfold nbp, isin.
    destruct neighborhoods as [[|n ns]|];
      rewrite ?map_map, ?loc_map, ?filter_true; reflexivity. }
  assert (Hrt : forall f : DataFrame,
             match room_type with
             | Some (String c cs) =>
                 loc f (eq_str (map Listing.room_type f) (String c cs))
             | _ => f
             end = filter rtp f).
  { intros f. unfold rtp, eq_str.
    destruct room_type as [[|c cs]|];
      rewrite ?map_map, ?loc_map, ?filter_true; reflexivity. }
  rewrite Hnb, Hrt, (filter_filter num nbp), (filter_filter _ rtp).
  set (pre := fun r : Listing.t => num r && nbp r && rtp r).
  assert (Hkeep : forall so r,
             kept so r =
             pre r
             && match so with
                | Some f => match Listing.name r with
                            | Some v => f v
                            | None => false
                            end
                | None => true
                end) by reflexivity.
  assert (HN : filter (kept None) df = filter pre df).
  { apply filter_ext. intros r. rewrite Hkeep. apply andb_true_r. }
  unfold compile_text, str_contains.
  destruct search_text as [[|c cs]|].
  - now rewrite HN.
  - destruct (re_compile (String c cs)) as [e|f]; [reflexivity|].
    rewrite map_map, loc_map, (filter_filter pre). reflexivity.
  - now rewrite HN.
Qed.

End FilterFacts.

(** ** Column minimum, maximum and mean *)

Lemma Series_min_le (s : list Q) (m : Q) :
  Series_min s = Some m -> forall x, In x s -> (m <= x)%Q.
Proof.
  revert m. induction s as [|y s IH]; simpl; intros m Hm x Hx; [contradiction|].
  destruct (Series_min s) as [m0|] eqn:Hs.
  - injection Hm as <-.
    destruct (Qle_bool y m0) eqn:Hle.
    + apply Qle_bool_iff in Hle.
      destruct Hx as [<-|Hx]; [apply Qle_refl|].
      eapply Qle_trans; [exact Hle | now apply IH].
    + assert (Hlt : (m0 < y)%Q).
      { apply Qnot_le_lt. intros H. apply Qle_bool_iff in H. congruence. }
      destruct Hx as [<-|Hx]; [now apply Qlt_le_weak | now apply IH].
  - injection Hm as <-.
    destruct Hx as [<-|Hx]; [apply Qle_refl|].
    destruct s; [contradiction | simpl in Hs].
    destruct (Series_min s); discriminate.
Qed.

Lemma Series_max_ge (s : list Q) (m : Q) :
  Series_max s = Some m -> forall x, In x s -> (x <= m)%Q.
Proof.
  revert m. induction s as [|y s IH]; simpl; intros m Hm x Hx; [contradiction|].
  destruct (Series_max s) as [m0|] eqn:Hs.
  - injection Hm as <-.
    destruct (Qle_bool m0 y) eqn:Hle.
    + apply Qle_bool_iff in Hle.
      destruct Hx as [<-|Hx]; [apply Qle_refl|].
      eapply Qle_trans; [now apply IH | exact Hle].
    + assert (Hlt : (y < m0)%Q).
      { apply Qnot_le_lt. intros H. apply Qle_bool_iff in H. congruence. }
      destruct Hx as [<-|Hx]; [now apply Qlt_le_weak | now apply IH].
  - injection Hm as <-.
    destruct Hx as [<-|Hx]; [apply Qle_refl|].
    destruct s; [contradiction | simpl in Hs].
    destruct (Series_max s); discriminate.
Qed.

(** The mean of a non-empty column is its sum divided by its length. *)
Lemma Series_mean_spec (s : list Q) :
  s <> [] ->
  exists m, Series_mean s = Some m /\
            (m * inject_Z (Z.of_nat (List.length s)) == Series_sum s)%Q.
Proof.
  destruct s as [|x s]; [congruence | intros _].
  eexists; split; [reflexivity|].
  set (k := inject_Z (Z.of_nat (List.length (x :: s)))).
  assert (Hk : ~ (k == 0)%Q).
  { unfold k, Qeq; simpl. lia. }
  now field.
Qed.

(** ** The filter engine *)

Section FilterClaims.

Context {E : Type}.
Variable re_compile : string -> E + (string -> bool).
Variables min_price max_price : Q.
Variable neighborhoods : option (list string).
Variable room_type : option string.
Variables min_avail max_avail min_reviews : Z.
Variable search_text : option string.

Local Abbreviation run df :=
  (apply_filters re_compile df min_price max_price neighborhoods room_type
                 min_avail max_avail min_reviews search_text).

Local Abbreviation kept so :=
  (keep min_price max_price neighborhoods room_type
        min_avail max_avail min_reviews so).

(** In the embedding the call returns when the search text is switched off
    or compiles, and then it returns the rows that pass every test. *)
Lemma apply_filters_returns (df : DataFrame) (so : option (string -> bool)) :
  compile_text re_compile search_text = inr so ->
  run df = inr (summary (filter (kept so) df)).
Proof. intros H. now rewrite apply_filters_filter, H. Qed.

Lemma apply_filters_raises (df : DataFrame) (e : E) :
  run df = inl e <-> compile_text re_compile search_text = inl e.
Proof.
  rewrite apply_filters_filter.
  destruct (compile_text re_compile search_text); split; congruence.
Qed.

Lemma apply_filters_inv (df filtered : DataFrame) (avg : option Q) (n : nat) :
  run df = inr (filtered, avg, n) ->
  exists so, compile_text re_compile search_text = inr so /\
             filtered = filter (kept so) df /\
             (filtered, avg, n) = summary filtered.
Proof.
  rewrite apply_filters_filter.
  destruct (compile_text re_compile search_text) as [e|so]; [discriminate|].
  unfold summary. intros H. injection H as <- <- <-.
  exists so. repeat split.
Qed.

(** Every returned row is a row of the dataset that passes the numeric,
    neighbourhood and room-type tests as the claim C1 words them, and that
    the compiled pattern finds a match in, when a search text is given. *)
Lemma apply_filters_sound (df filtered : DataFrame) (avg : option Q) (n : nat) :
  run df = inr (filtered, avg, n) ->
  forall r, In r filtered ->
    In r df /\
    (min_price <= Listing.price r <= max_price)%Q /\
    (min_avail <= Listing.availability_365 r <= max_avail)%Z /\
    (min_reviews <= Listing.number_of_reviews r)%Z /\
    (forall nbs, neighborhoods = Some nbs -> nbs <> [] ->
                 In (Listing.neighbourhood r) nbs) /\
    (forall rt, room_type = Some rt -> rt <> "" ->
                Listing.room_type r = rt) /\
    (forall pat, search_text = Some pat -> pat <> "" ->
                 exists found v, re_compile pat = inr found /\
                                 Listing.name r = Some v /\ found v = true).
Proof.
  intros Hrun r Hr.
  destruct (apply_filters_inv _ _ _ _ Hrun) as (so & Hso & Hf & _).
  subst filtered. apply filter_In in Hr. destruct Hr as [Hin Hk].
  unfold keep in Hk.
  apply andb_true_iff in Hk; destruct Hk as [Hk Htxt].
  apply andb_true_iff in Hk; destruct Hk as [Hk Hrt].
  apply andb_true_iff in Hk; destruct Hk as [Hk Hnb].
  apply andb_true_iff in Hk; destruct Hk as [Hk Hrev].
  apply andb_true_iff in Hk; destruct Hk as [Hk Hamax].
  apply andb_true_iff in Hk; destruct Hk as [Hk Hamin].
  apply andb_true_iff in Hk; destruct Hk as [Hpmin Hpmax].
  apply Qle_bool_iff in Hpmin, Hpmax.
  apply Z.leb_le in Hrev, Hamax, Hamin.
  repeat split; try assumption.
  - intros nbs Hnbs Hne. rewrite Hnbs in Hnb.
    destruct nbs as [|n0 ns]; [congruence|].
    apply existsb_exists in Hnb. destruct Hnb as (x & Hx & Heq).
    apply String.eqb_eq in Heq. now rewrite Heq.
  - intros rt Hrt' Hne. rewrite Hrt' in Hrt.
    destruct rt as [|c cs]; [congruence|].
    now apply String.eqb_eq.
  - intros pat Hpat Hne. destruct pat as [|c cs]; [congruence|].
    unfold compile_text in Hso. rewrite Hpat in Hso.
    destruct (re_compile (String c cs)) as [e|found]; [discriminate|].
    injection Hso as <-.
    destruct (Listing.name r) as [v|]; [|discriminate].
    now exists found, v.
Qed.

(** With a search text, a listing without a name is never returned. *)
Lemma null_names_excluded (df filtered : DataFrame) (avg : option Q) (n : nat) :
  truthy_str search_text = true ->
  run df = inr (filtered, avg, n) ->
  forall r, In r filtered -> Listing.name r <> None.
Proof.
  intros Ht Hrun r Hr.
  destruct (apply_filters_sound _ _ _ _ Hrun r Hr)
    as (_ & _ & _ & _ & _ & _ & H).
  assert (Hs : exists pat, search_text = Some pat /\ pat <> "").
  { unfold truthy_str in Ht. destruct search_text as [[|c cs]|];
      try discriminate. eexists; split; [reflexivity | discriminate]. }
  destruct Hs as (pat & Hs & Hne).
  destruct (H _ Hs Hne) as (found & v & _ & Hv & _); congruence.
Qed.

End FilterClaims.

Section Claims.

Context {E : Type}.
Variable re_compile : string -> E + (string -> bool).
Variables min_price max_price : Q.
Variable neighborhoods : option (list string).
Variable room_type : option string.
Variables min_avail max_avail min_reviews : Z.
Variable search_text : option string.

Local Abbreviation run df :=
  (apply_filters re_compile df min_price max_price neighborhoods room_type
                 min_avail max_avail min_reviews search_text).

Local Abbreviation kept so :=
  (keep min_price max_price neighborhoods room_type
        min_avail max_avail min_reviews so).

(** X18.  Whenever [apply_filters] returns, the average price it returns is
    a number, never NaN, and when the frame it returns is empty the average
    is exactly 0 and the count exactly 0. *)
Theorem empty_frame_has_zero_average
    (df filtered : DataFrame) (avg : option Q) (n : nat) :
  run df = inr (filtered, avg, n) ->
  avg <> None /\ (filtered = [] -> avg = Some 0%Q /\ n = 0%nat).
Proof.
  intros H.
  destruct (apply_filters_inv _ _ _ _ _ _ _ _ _ _ _ _ _ H)
    as (_ & _ & _ & Hs).
  unfold summary in Hs. split.
  - injection Hs as Ha _.
    destruct filtered; simpl in Ha; subst avg; discriminate.
  - intros Hempty. subst filtered. simpl in Hs. split; congruence.
Qed.

(** C5.  When the frame [apply_filters] returns is not empty, that frame
    is the rows of the dataset passing the tests, the count is its number
    of rows, and the average is the arithmetic mean of the prices of its
    rows: the average times the count is the sum of those prices. *)
Theorem average_over_filtered_rows
    (df filtered : DataFrame) (avg : option Q) (n : nat) :
  run df = inr (filtered, avg, n) ->
  filtered <> [] ->
  (exists so, compile_text re_compile search_text = inr so /\
              filtered = filter (kept so) df) /\
  n = List.length filtered /\
  exists m, avg = Some m /\
            (m * inject_Z (Z.of_nat n)
             == Series_sum (col Listing.price filtered))%Q.
Proof.
  intros Hrun Hne.
  destruct (apply_filters_inv _ _ _ _ _ _ _ _ _ _ _ _ _ Hrun)
    as (so & Hso & Hf & Hs).
  unfold summary in Hs. injection Hs as Ha Hn.
  split; [now exists so|]. split; [assumption|].
  destruct filtered as [|r f]; [congruence|].
  simpl negb in Ha. cbv iota in Ha.
  destruct (Series_mean_spec (col Listing.price (r :: f)))
    as (m & Hm & Heq); [discriminate|].
  exists m. split; [congruence|].
  unfold col in Heq. rewrite length_map in Heq. now rewrite Hn.
Qed.

(** X19.  Bounds given the wrong way round are not validated, and no row
    passes them: with the minimum price above the maximum, or the minimum
    availability above the maximum, whatever [apply_filters] returns is the
    empty frame with average 0 and count 0. *)
Theorem inverted_bounds_return_nothing
    (df filtered : DataFrame) (avg : option Q) (n : nat) :
  (max_price < min_price)%Q \/ (max_avail < min_avail)%Z ->
  run df = inr (filtered, avg, n) ->
  filtered = [] /\ avg = Some 0%Q /\ n = 0%nat.
Proof.
  intros Hinv H.
  destruct (apply_filters_inv _ _ _ _ _ _ _ _ _ _ _ _ _ H)
    as (so & _ & Hf & Hs).
  assert (Hnil : filtered = []).
  { rewrite Hf. apply filter_none. intros r _. unfold keep.
    destruct Hinv as [Hp|Ha].
    + destruct (Qle_bool min_price (Listing.price r)) eqn:H1;
        [|reflexivity].
      destruct (Qle_bool (Listing.price r) max_price) eqn:H2;
        [|reflexivity].
      apply Qle_bool_iff in H1, H2.
      exfalso. apply (Qlt_not_le _ _ Hp). eapply Qle_trans; eassumption.
    + destruct (min_avail <=? Listing.availability_365 r)%Z eqn:H1;
        [|now rewrite !andb_false_r].
      destruct (Listing.availability_365 r <=? max_avail)%Z eqn:H2;
        [|now rewrite !andb_false_r].
      apply Z.leb_le in H1, H2. lia. }
  split; [exact Hnil|].
  rewrite Hnil in Hs. unfold summary in Hs. simpl in Hs.
  split; congruence.
Qed.

(** C8.  The rows [apply_filters] returns are in the order they have in
    the dataset: the returned frame is the dataset with rows removed. *)
Theorem apply_filters_preserves_order
    (df filtered : DataFrame) (avg : option Q) (n : nat) :
  run df = inr (filtered, avg, n) -> subsequence filtered df.
Proof.
  intros Hrun.
  destruct (apply_filters_inv _ _ _ _ _ _ _ _ _ _ _ _ _ Hrun)
    as (so & _ & -> & _).
  apply filter_subsequence.
Qed.

(** C10.  Applied with the same criteria to the frame it returned,
    [apply_filters] returns that frame again, with the same average price
    and the same count. *)
Theorem apply_filters_idempotent
    (df filtered : DataFrame) (avg : option Q) (n : nat) :
  run df = inr (filtered, avg, n) ->
  run filtered = inr (filtered, avg, n).
Proof.
  intros Hrun.
  destruct (apply_filters_inv _ _ _ _ _ _ _ _ _ _ _ _ _ Hrun)
    as (so & Hso & Hf & Hs).
  rewrite (apply_filters_returns _ _ _ _ _ _ _ _ _ _ _ Hso).
  rewrite Hs. f_equal. f_equal.
  rewrite Hf at 1. rewrite filter_idem. now symmetry.
Qed.

End Claims.

(** C2.  With the price bounds at the minimum and the maximum price of the
    dataset, availability from 0 to 365, no minimum number of reviews and no
    neighbourhood, room type or search text, [apply_filters] returns the
    whole dataset, with the mean price of the whole dataset and its number
    of rows. *)
Theorem widest_criteria_return_dataset {E : Type}
    (re_compile : string -> E + (string -> bool)) (df : DataFrame)
    (lowest highest : Q) (neighborhoods : option (list string))
    (room_type search_text : option string) :
  Forall well_formed df ->
  Series_min (col Listing.price df) = Some lowest ->
  Series_max (col Listing.price df) = Some highest ->
  truthy_list neighborhoods = false ->
  truthy_str room_type = false ->
  truthy_str search_text = false ->
  apply_filters re_compile df lowest highest neighborhoods room_type
                0 365 0 search_text
  = inr (df, Series_mean (col Listing.price df), List.length df).
Proof.
  intros Hwf Hmin Hmax Hnb Hrt Hst.
  assert (Hc : compile_text re_compile search_text = inr None).
  { destruct search_text as [[|c cs]|]; try reflexivity; discriminate. }
  rewrite (apply_filters_returns _ _ _ _ _ _ _ _ _ _ _ Hc).
  rewrite filter_all.
  - unfold summary. destruct df; [discriminate | reflexivity].
  - intros r Hr. unfold keep.
    pose proof (proj1 (Forall_forall _ _) Hwf r Hr) as (_ & Hav & Hrev).
    assert (Hp : In (Listing.price r) (col Listing.price df))
      by now apply in_map.
    pose proof (Series_min_le _ _ Hmin _ Hp) as Hlo.
    pose proof (Series_max_ge _ _ Hmax _ Hp) as Hhi.
    apply Qle_bool_iff in Hlo, Hhi. rewrite Hlo, Hhi.
    replace (0 <=? Listing.availability_365 r)%Z with true
      by (symmetry; apply Z.leb_le; lia).
    replace (Listing.availability_365 r <=? 365)%Z with true
      by (symmetry; apply Z.leb_le; lia).
    replace (0 <=? Listing.number_of_reviews r)%Z with true
      by (symmetry; apply Z.leb_le; lia).
    destruct neighborhoods as [[|n ns]|]; try discriminate;
      destruct room_type as [[|c cs]|]; try discriminate; reflexivity.
Qed.

(** ** The neighbourhood aggregate *)

Lemma compare_gt_lt (a b : string) :
  String.compare a b = Gt -> String_as_OT.lt b a.
Proof.
  intros H. apply String_as_OT.cmp_lt. unfold String_as_OT.cmp.
  rewrite String.compare_antisym, H. reflexivity.
Qed.

Lemma insert_key_in (k x : string) (ks : list string) :
  In x (insert_key k ks) <-> x = k \/ In x ks.
Proof.
  induction ks as [|k' ks IH]; simpl.
  - intuition.
  - destruct (String.compare k k') eqn:Hc; simpl.
    + apply String.compare_eq_iff in Hc. subst k'. intuition.
    + intuition.
    + rewrite IH. intuition.
Qed.

Lemma insert_key_sorted (k : string) (ks : list string) :
  StronglySorted String_as_OT.lt ks ->
  StronglySorted String_as_OT.lt (insert_key k ks).
Proof.
  induction 1 as [|k' ks Hs IH Hall]; simpl.
  - constructor; constructor.
  - destruct (String.compare k k') eqn:Hc.
    + now constructor.
    + apply String_as_OT.cmp_lt in Hc.
      constructor; [now constructor|].
      constructor; [exact Hc|].
      eapply Forall_impl; [|exact Hall].
      intros x Hx. eapply String_as_OT.lt_trans; eassumption.
    + constructor; [exact IH|].
      apply Forall_forall. intros x Hx.
      apply insert_key_in in Hx. destruct Hx as [->|Hx].
      * now apply compare_gt_lt.
      * exact (proj1 (Forall_forall _ _) Hall x Hx).
Qed.

Lemma group_keys_in (s : list string) (k : string) :
  In k (group_keys s) <-> In k s.
Proof.
  induction s as [|x s IH]; simpl; [tauto|].
  rewrite insert_key_in, IH. intuition.
Qed.

Lemma group_keys_sorted (s : list string) :
  StronglySorted String_as_OT.lt (group_keys s).
Proof.
  induction s as [|x s IH]; simpl; [constructor|].
  now apply insert_key_sorted.
Qed.

Lemma argmax_in (s : list (string * option Q)) (k : string) (x : Q) :
  argmax s = Some (k, x) -> In (k, Some x) s.
Proof.
  induction s as [|[k0 [x0|]] s IH]; simpl; intros H; try discriminate.
  - destruct (argmax s) as [[k1 y]|].
    + destruct (Qle_bool y x0); injection H as <- <-; auto.
    + injection H as <- <-; auto.
  - auto.
Qed.

Lemma argmax_upper_bound (s : list (string * option Q)) (k : string) (x : Q) :
  argmax s = Some (k, x) ->
  forall k' y, In (k', Some y) s -> (y <= x)%Q.
Proof.
  revert k x.
  induction s as [|[k0 [x0|]] s IH]; simpl; intros k x H k' y Hin;
    try contradiction.
  - destruct (argmax s) as [[k1 z]|] eqn:Hs.
    + destruct (Qle_bool z x0) eqn:Hle.
      * injection H as <- <-. apply Qle_bool_iff in Hle.
        destruct Hin as [Heq|Hin]; [injection Heq as <- <-; apply Qle_refl|].
        eapply Qle_trans; [exact (IH _ _ eq_refl _ _ Hin) | exact Hle].
      * injection H as <- <-.
        assert (Hlt : (x0 < z)%Q).
        { apply Qnot_le_lt. intros Hc. apply Qle_bool_iff in Hc. congruence. }
        destruct Hin as [Heq|Hin];
          [injection Heq as <- <-; now apply Qlt_le_weak|].
        exact (IH _ _ eq_refl _ _ Hin).
    + injection H as <- <-.
      destruct Hin as [Heq|Hin]; [injection Heq as <- <-; apply Qle_refl|].
      exfalso. clear IH. induction s as [|[k2 [x2|]] s IHs]; simpl in *.
      * contradiction.
      * destruct (argmax s) as [[? ?]|]; [destruct (Qle_bool _ _)|];
          discriminate.
      * destruct Hin as [Heq|Hin]; [discriminate | auto].
  - destruct Hin as [Heq|Hin]; [discriminate|]. eauto.
Qed.

Lemma argmin_in (s : list (string * option Q)) (k : string) (x : Q) :
  argmin s = Some (k, x) -> In (k, Some x) s.
Proof.
  induction s as [|[k0 [x0|]] s IH]; simpl; intros H; try discriminate.
  - destruct (argmin s) as [[k1 y]|].
    + destruct (Qle_bool x0 y); injection H as <- <-; auto.
    + injection H as <- <-; auto.
  - auto.
Qed.

Lemma argmin_lower_bound (s : list (string * option Q)) (k : string) (x : Q) :
  argmin s = Some (k, x) ->
  forall k' y, In (k', Some y) s -> (x <= y)%Q.
Proof.
  revert k x.
  induction s as [|[k0 [x0|]] s IH]; simpl; intros k x H k' y Hin;
    try contradiction.
  - destruct (argmin s) as [[k1 z]|] eqn:Hs.
    + destruct (Qle_bool x0 z) eqn:Hle.
      * injection H as <- <-. apply Qle_bool_iff in Hle.
        destruct Hin as [Heq|Hin]; [injection Heq as <- <-; apply Qle_refl|].
        eapply Qle_trans; [exact Hle | exact (IH _ _ eq_refl _ _ Hin)].
      * injection H as <- <-.
        assert (Hlt : (z < x0)%Q).
        { apply Qnot_le_lt. intros Hc. apply Qle_bool_iff in Hc. congruence. }
        destruct Hin as [Heq|Hin];
          [injection Heq as <- <-; now apply Qlt_le_weak|].
        exact (IH _ _ eq_refl _ _ Hin).
    + injection H as <- <-.
      destruct Hin as [Heq|Hin]; [injection Heq as <- <-; apply Qle_refl|].
      exfalso. clear IH. induction s as [|[k2 [x2|]] s IHs]; simpl in *.
      * contradiction.
      * destruct (argmin s) as [[? ?]|]; [destruct (Qle_bool _ _)|];
          discriminate.
      * destruct Hin as [Heq|Hin]; [discriminate | auto].
  - destruct Hin as [Heq|Hin]; [discriminate|]. eauto.
Qed.

Lemma argmax_defined (s : list (string * option Q)) (k : string) (x : Q) :
  In (k, Some x) s -> exists best, argmax s = Some best.
Proof.
  induction s as [|[k0 [x0|]] s IH]; simpl; intros Hin; [contradiction| |].
  - destruct (argmax s) as [[k1 z]|]; [destruct (Qle_bool z x0)|]; eauto.
  - destruct Hin as [Heq|Hin]; [discriminate | auto].
Qed.

Lemma argmin_defined (s : list (string * option Q)) (k : string) (x : Q) :
  In (k, Some x) s -> exists best, argmin s = Some best.
Proof.
  induction s as [|[k0 [x0|]] s IH]; simpl; intros Hin; [contradiction| |].
  - destruct (argmin s) as [[k1 z]|]; [destruct (Qle_bool x0 z)|]; eauto.
  - destruct Hin as [Heq|Hin]; [discriminate | auto].
Qed.

(** The listings of one neighbourhood. *)
Lemma group_rows (df : DataFrame) (k : string) :
  loc df (eq_str (col Listing.neighbourhood df) k)
  = filter (fun r => String.eqb (Listing.neighbourhood r) k) df.
Proof.
  unfold eq_str, col. now rewrite map_map, loc_map.
Qed.

Lemma groupby_keys (df : DataFrame) :
  map fst (groupby_neighbourhood_price_mean df)
  = group_keys (col Listing.neighbourhood df).
Proof.
  unfold groupby_neighbourhood_price_mean.
  rewrite map_map. simpl. apply map_id.
Qed.

Lemma groupby_entry (df : DataFrame) (k : string) (v : option Q) :
  In (k, v) (groupby_neighbourhood_price_mean df) ->
  (exists r, In r df /\ Listing.neighbourhood r = k) /\
  v = Series_mean
        (col Listing.price
           (filter (fun r => String.eqb (Listing.neighbourhood r) k) df)).
Proof.
  unfold groupby_neighbourhood_price_mean. intros Hin.
  apply in_map_iff in Hin. destruct Hin as (k0 & Heq & Hk).
  injection Heq as <- <-. rewrite group_rows. split; [|reflexivity].
  apply (proj1 (group_keys_in _ _)) in Hk. unfold col in Hk.
  apply in_map_iff in Hk. destruct Hk as (r & Hr & Hin). now exists r.
Qed.

Lemma groupby_entry_mean (df : DataFrame) (k : string) (v : option Q) :
  In (k, v) (groupby_neighbourhood_price_mean df) ->
  exists m,
    v = Some m /\
    (m * inject_Z (Z.of_nat (List.length
           (filter (fun r => String.eqb (Listing.neighbourhood r) k) df)))
     == Series_sum
          (col Listing.price
             (filter (fun r => String.eqb (Listing.neighbourhood r) k) df)))%Q.
Proof.
  intros Hin. destruct (groupby_entry _ _ _ Hin) as ((r & Hr & Hk) & ->).
  set (rows := filter _ df).
  assert (Hne : col Listing.price rows <> []).
  { assert (Hrow : In r rows).
    { apply filter_In. split; [exact Hr | now apply String.eqb_eq]. }
    destruct rows; [contradiction | discriminate]. }
  destruct (Series_mean_spec _ Hne) as (m & Hm & Heq).
  exists m. split; [exact Hm|].
  unfold col in Heq. now rewrite length_map in Heq.
Qed.

Lemma groupby_covers (df : DataFrame) (r : Listing.t) :
  In r df ->
  exists v, In (Listing.neighbourhood r, v) (groupby_neighbourhood_price_mean df).
Proof.
  intros Hr. unfold groupby_neighbourhood_price_mean.
  eexists. apply in_map_iff. exists (Listing.neighbourhood r).
  split; [reflexivity|].
  apply group_keys_in. unfold col. now apply in_map.
Qed.

(** C6.  The aggregate of lines 65-66 has one entry per neighbourhood of the
    dataset, whose value is the mean price over the listings of that
    neighbourhood; the most expensive neighbourhood it reports has the
    largest of these means and the most affordable one the smallest, and
    both are reported for every dataset that is not empty.  On the example
    dataset the means are 120 for Back Bay and 40 for Allston, the most
    expensive neighbourhood is Back Bay and the most affordable Allston. *)
Theorem neighbourhood_price_aggregate :
  (forall df : DataFrame,
      StronglySorted String_as_OT.lt
                     (map fst (groupby_neighbourhood_price_mean df)) /\
      (forall r, In r df ->
         exists v, In (Listing.neighbourhood r, v)
                      (groupby_neighbourhood_price_mean df)) /\
      (forall k v, In (k, v) (groupby_neighbourhood_price_mean df) ->
         (exists r, In r df /\ Listing.neighbourhood r = k) /\
         exists m,
           v = Some m /\
           (m * inject_Z (Z.of_nat (List.length
                  (filter (fun r => String.eqb (Listing.neighbourhood r) k) df)))
            == Series_sum
                 (col Listing.price
                    (filter (fun r => String.eqb (Listing.neighbourhood r) k)
                            df)))%Q) /\
      (forall k, priciest_neighborhood df = Some k ->
         exists m, In (k, Some m) (groupby_neighbourhood_price_mean df) /\
                   forall k' m',
                     In (k', Some m') (groupby_neighbourhood_price_mean df) ->
                     (m' <= m)%Q) /\
      (forall k, cheapest_neighborhood df = Some k ->
         exists m, In (k, Some m) (groupby_neighbourhood_price_mean df) /\
                   forall k' m',
                     In (k', Some m') (groupby_neighbourhood_price_mean df) ->
                     (m <= m')%Q) /\
      (df <> [] ->
       exists k1 k2, priciest_neighborhood df = Some k1 /\
                     cheapest_neighborhood df = Some k2)) /\
  groupby_neighbourhood_price_mean example
  = [("Allston", Some 40%Q); ("Back Bay", Some 120%Q)] /\
  priciest_neighborhood example = Some "Back Bay" /\
  cheapest_neighborhood example = Some "Allston".
Proof.
  split; [|repeat split; reflexivity].
  intros df. repeat apply conj.
  - rewrite groupby_keys. apply group_keys_sorted.
  - apply groupby_covers.
  - intros k v Hin. split.
    + exact (proj1 (groupby_entry _ _ _ Hin)).
    + now apply groupby_entry_mean.
  - unfold priciest_neighborhood, idxmax. intros k Hk.
    destruct (argmax _) as [[k0 m]|] eqn:Ha; [|discriminate].
    injection Hk as ->. exists m. split.
    + now apply argmax_in.
    + now apply argmax_upper_bound with (k := k).
  - unfold cheapest_neighborhood, idxmin. intros k Hk.
    destruct (argmin _) as [[k0 m]|] eqn:Ha; [|discriminate].
    injection Hk as ->. exists m. split.
    + now apply argmin_in.
    + now apply argmin_lower_bound with (k := k).
  - intros Hne. destruct df as [|r df]; [congruence|].
    destruct (groupby_covers (r :: df) r (or_introl eq_refl)) as (v & Hv).
    destruct (groupby_entry_mean _ _ _ Hv) as (m & -> & _).
    destruct (argmax_defined _ _ _ Hv) as ([k1 x1] & H1).
    destruct (argmin_defined _ _ _ Hv) as ([k2 x2] & H2).
    exists k1, k2. unfold priciest_neighborhood, cheapest_neighborhood,
      idxmax, idxmin. now rewrite H1, H2.
Qed.

(** ** The text search: regular expressions against plain substrings *)

Lemma lower_upper (c : ascii) : lower (upper c) = lower c.
Proof. destruct c as [[] [] [] [] [] [] [] []]; reflexivity. Qed.

Lemma special_upper (c : ascii) : special (upper c) = special c.
Proof. destruct c as [[] [] [] [] [] [] [] []]; reflexivity. Qed.

Lemma parse_plain (pat : string) :
  plain pat = true -> parse pat = inr (map Lit (list_ascii_of_string pat)).
Proof.
  induction pat as [|c pat IH]; simpl; [reflexivity|].
  unfold plain; simpl. intros H.
  apply andb_true_iff in H. destruct H as [Hc Hp].
  rewrite (IH Hp).
  assert (Hb : Ascii.eqb c "\" = false /\ Ascii.eqb c "." = false).
  { unfold special in Hc. simpl in Hc.
    destruct (Ascii.eqb c "."); [discriminate|].
    destruct (Ascii.eqb c "\"); [|now split].
    rewrite !orb_true_r in Hc. discriminate. }
  destruct Hb as [-> ->].
  apply negb_true_iff in Hc. now rewrite Hc.
Qed.

Lemma match_here_plain (pat s : string) :
  match_here (map Lit (list_ascii_of_string pat)) s = prefix_ci pat s.
Proof.
  revert s. induction pat as [|c pat IH]; intros [|d s]; simpl;
    try reflexivity.
  now rewrite IH.
Qed.

Lemma search_plain (pat s : string) :
  search (map Lit (list_ascii_of_string pat)) s = contains_ci pat s.
Proof.
  induction s as [|d s IH]; simpl; rewrite match_here_plain;
    [reflexivity | now rewrite IH].
Qed.

(** On plain text the compiled search is the spec's search: a substring
    test that ignores letter case. *)
Lemma plain_text_search (pat : string) :
  plain pat = true ->
  exists found, py_re_compile pat = inr found /\
                forall s, found s = contains_ci pat s.
Proof.
  intros H. unfold py_re_compile. rewrite (parse_plain _ H).
  eexists; split; [reflexivity|]. intros s. apply search_plain.
Qed.

Lemma plain_to_upper (pat : string) : plain (to_upper pat) = plain pat.
Proof.
  unfold plain. induction pat as [|c pat IH]; simpl; [reflexivity|].
  now rewrite special_upper, IH.
Qed.

Lemma prefix_ci_to_upper (pat s : string) :
  prefix_ci (to_upper pat) s = prefix_ci pat s.
Proof.
  revert s. induction pat as [|c pat IH]; intros [|d s]; simpl;
    try reflexivity.
  now rewrite lower_upper, IH.
Qed.

Lemma contains_ci_to_upper (pat s : string) :
  contains_ci (to_upper pat) s = contains_ci pat s.
Proof.
  induction s as [|d s IH]; simpl; rewrite prefix_ci_to_upper;
    [reflexivity | now rewrite IH].
Qed.

(** On plain text the letter case of the search text does not matter. *)
Lemma plain_text_search_ignores_case (pat : string) :
  plain pat = true ->
  exists found found',
    py_re_compile pat = inr found /\
    py_re_compile (to_upper pat) = inr found' /\
    forall s, found s = found' s.
Proof.
  intros H.
  destruct (plain_text_search pat H) as (f & Hf & Hfs).
  assert (H' : plain (to_upper pat) = true) by now rewrite plain_to_upper.
  destruct (plain_text_search _ H') as (f' & Hf' & Hfs').
  exists f, f'. repeat split; try assumption.
  intros s. now rewrite Hfs, Hfs', contains_ci_to_upper.
Qed.

(** C1.  The search text is compiled as a regular expression, not looked
    for as a substring: on the example dataset the search text [.] returns
    both listings, and neither name contains a dot. *)
Theorem text_search_is_regular_expression :
  apply_filters py_re_compile example 0 200 None None 0 365 0 (Some ".")
  = inr (example, Some (160 # 2)%Q, 2%nat) /\
  contains_ci "." "Cozy Loft" = false /\
  contains_ci "." "Shared Room" = false.
Proof. repeat split; reflexivity. Qed.

(** C4.  Changing the letter case of the search text can change the result:
    the upper-case form of [\d] is [\D]; on the example dataset [\d] (a
    digit) returns no listing, with average 0 and count 0, and [\D] (a
    character that is not a digit) returns both listings. *)
Theorem text_search_case_changes_result :
  to_upper "\d" = "\D" /\
  apply_filters py_re_compile example 0 200 None None 0 365 0 (Some "\d")
  = inr ([], Some 0%Q, 0%nat) /\
  apply_filters py_re_compile example 0 200 None None 0 365 0 (Some "\D")
  = inr (example, Some (160 # 2)%Q, 2%nat).
Proof. repeat split; reflexivity. Qed.

(** C9.  With a listing without a name in the dataset, the search text [o]
    returns the named listings that match and leaves the unnamed one out;
    the search text made of a lone backslash makes [apply_filters] raise
    [re.error]. *)
Theorem text_search_can_raise :
  apply_filters py_re_compile [cozy_loft; unnamed; shared_room]
                0 200 None None 0 365 0 (Some "o")
  = inr ([cozy_loft; shared_room], Some (160 # 2)%Q, 2%nat) /\
  apply_filters py_re_compile [cozy_loft; unnamed; shared_room]
                0 200 None None 0 365 0 (Some "\")
  = inl re_error.
Proof. split; reflexivity. Qed.

(** C3.  Criteria that no listing of the example dataset meets, no price
    being between 1000 and 2000, give the empty frame with average 0 and
    count 0 when the search text is [loft]; with the search text made of a
    lone backslash, which no name contains, [apply_filters] raises
    [re.error] instead. *)
Theorem no_match_with_bad_pattern_raises :
  apply_filters py_re_compile example 1000 2000 None None 0 365 0
                (Some "loft")
  = inr ([], Some 0%Q, 0%nat) /\
  contains_ci "\" "Cozy Loft" = false /\
  contains_ci "\" "Shared Room" = false /\
  apply_filters py_re_compile example 1000 2000 None None 0 365 0
                (Some "\")
  = inl re_error.
Proof. repeat split; reflexivity. Qed.

(** C7.  With the minimum price 200 above the maximum price 50, the example
    dataset gives the empty frame with average 0 and count 0 when the search
    text is [loft]; with the search text made of a lone backslash,
    [apply_filters] raises [re.error] instead. *)
Theorem inverted_bounds_with_bad_pattern_raise :
  apply_filters py_re_compile example 200 50 None None 0 365 0
                (Some "loft")
  = inr ([], Some 0%Q, 0%nat) /\
  apply_filters py_re_compile example 200 50 None None 0 365 0
                (Some "\")
  = inl re_error.
Proof. split; reflexivity. Qed.

(** ** The theorems at the example dataset *)

Lemma example_well_formed : Forall well_formed example.
Proof.
  repeat (apply Forall_cons || apply Forall_nil);
    unfold well_formed, Qle; simpl; lia.
Defined.

(** The widest criteria on the example dataset: prices from 40 to 120. *)
Lemma widest_criteria_return_dataset_witness :
  Forall well_formed example /\
  Series_min (col Listing.price example) = Some 40%Q /\
  Series_max (col Listing.price example) = Some 120%Q /\
  apply_filters py_re_compile example 40 120 None (Some "") 0 365 0 None
  = inr (example, Series_mean (col Listing.price example), 2%nat).
Proof.
  split; [exact example_well_formed|].
  split; [reflexivity|]. split; [reflexivity|].
  apply (widest_criteria_return_dataset py_re_compile example 40 120
                                        None (Some "") None);
    solve [exact example_well_formed | reflexivity].
Defined.

(** Prices from 50 to 200 on the example dataset: the mean is the price of
    the one listing returned, not the mean 80 of the dataset. *)
Lemma average_over_filtered_rows_witness :
  (exists so, compile_text py_re_compile None = inr so /\
              [cozy_loft] = filter (keep 50 200 None None 0 365 0 so) example) /\
  1%nat = List.length [cozy_loft] /\
  exists m, Some 120%Q = Some m /\
            (m * inject_Z (Z.of_nat 1)
             == Series_sum (col Listing.price [cozy_loft]))%Q.
Proof.
  apply (average_over_filtered_rows py_re_compile 50 200 None None 0 365 0
                                    None example [cozy_loft] (Some 120%Q) 1%nat).
  - reflexivity.
  - discriminate.
Defined.

Lemma empty_frame_has_zero_average_witness :
  Some 0%Q <> None /\
  (@nil Listing.t = [] -> Some 0%Q = Some 0%Q /\ 0%nat = 0%nat).
Proof.
  apply (empty_frame_has_zero_average py_re_compile 1000 2000 None None
                                      0 365 0 (Some "loft") example
                                      [] (Some 0%Q) 0%nat).
  reflexivity.
Defined.

Lemma inverted_bounds_return_nothing_witness :
  (50 < 200)%Q /\
  (@nil Listing.t = [] /\ Some 0%Q = Some 0%Q /\ 0%nat = 0%nat).
Proof.
  split; [reflexivity|].
  apply (inverted_bounds_return_nothing py_re_compile 200 50
                                        (Some ["Allston"]) None 0 365 0
                                        (Some "loft") example
                                        [] (Some 0%Q) 0%nat).
  - left. reflexivity.
  - reflexivity.
Defined.

Lemma apply_filters_preserves_order_witness :
  subsequence [shared_room] example.
Proof.
  apply (apply_filters_preserves_order py_re_compile 0 200 None None 0 365 0
                                       (Some "ROOM") example [shared_room]
                                       (Some 40%Q) 1%nat).
  reflexivity.
Defined.

Lemma apply_filters_idempotent_witness :
  apply_filters py_re_compile [cozy_loft] 50 200 None
                (Some "Entire home/apt") 0 365 0 (Some "loft")
  = inr ([cozy_loft], Some 120%Q, 1%nat).
Proof.
  apply (apply_filters_idempotent py_re_compile 50 200 None
                                  (Some "Entire home/apt") 0 365 0
                                  (Some "loft") example).
  reflexivity.
Defined.

(** * Further properties of the code *)

(** ** More on [filter] and on sums *)

Lemma filter_refine {A : Type} (p q : A -> bool) (l : list A) :
  (forall x, In x l -> p x = true -> q x = true) ->
  filter p (filter q l) = filter p l.
Proof.
  induction l as [|x l IH]; simpl; intros H; [reflexivity|].
  assert (IH' : filter p (filter q l) = filter p l)
    by (apply IH; intros y Hy; apply H; now right).
  destruct (p x) eqn:Hp.
  - rewrite (H x (or_introl eq_refl) Hp). simpl. now rewrite Hp, IH'.
  - destruct (q x); simpl; [rewrite Hp|]; exact IH'.
Qed.

Lemma filter_swap {A : Type} (p q : A -> bool) (l : list A) :
  filter p (filter q l) = filter q (filter p l).
Proof.
  rewrite !filter_filter. apply filter_ext. intros x. apply andb_comm.
Qed.

Lemma filter_ext_on {A : Type} (p q : A -> bool) (l : list A) :
  (forall x, In x l -> p x = q x) -> filter p l = filter q l.
Proof.
  induction l as [|x l IH]; simpl; intros H; [reflexivity|].
  rewrite (H x (or_introl eq_refl)), IH; [reflexivity|].
  intros y Hy; apply H; now right.
Qed.

Lemma filter_length_le {A : Type} (p : A -> bool) (l : list A) :
  (List.length (filter p l) <= List.length l)%nat.
Proof.
  induction l as [|x l IH]; simpl; [lia|]. destruct (p x); simpl; lia.
Qed.

Lemma filter_length_eq {A : Type} (p : A -> bool) (l : list A) :
  List.length (filter p l) = List.length l -> filter p l = l.
Proof.
  induction l as [|x l IH]; simpl; [reflexivity|].
  destruct (p x); simpl; intros H.
  - f_equal. apply IH. lia.
  - pose proof (filter_length_le p l). lia.
Qed.

Lemma Series_sum_app (s t : list Q) :
  (Series_sum (s ++ t) == Series_sum s + Series_sum t)%Q.
Proof.
  induction s as [|x s IH]; simpl.
  - now rewrite Qplus_0_l.
  - rewrite IH. apply Qplus_assoc.
Qed.

Lemma Series_sum_bounds (lo hi : Q) (s : list Q) :
  (forall x, In x s -> (lo <= x <= hi)%Q) ->
  (lo * inject_Z (Z.of_nat (List.length s)) <= Series_sum s
   <= hi * inject_Z (Z.of_nat (List.length s)))%Q.
Proof.
  induction s as [|x s IH]; intros H.
  - simpl. rewrite !Qmult_0_r. split; apply Qle_refl.
  - destruct (H x (or_introl eq_refl)) as [Hlo Hhi].
    destruct IH as [IHlo IHhi]; [intros y Hy; apply H; now right|].
    assert (Hn : (inject_Z (Z.of_nat (List.length (x :: s)))
                  == 1 + inject_Z (Z.of_nat (List.length s)))%Q).
    { cbn [List.length]. rewrite Nat2Z.inj_succ, <- Z.add_1_l.
      now rewrite inject_Z_plus. }
    rewrite Hn. cbn [Series_sum fold_right].
    fold (Series_sum s).
    rewrite !Qmult_plus_distr_r, !Qmult_1_r.
    split; apply Qplus_le_compat; assumption.
Qed.

(** The mean of a column lies between any two bounds of its values. *)
Lemma Series_mean_bounds (lo hi m : Q) (s : list Q) :
  (forall x, In x s -> (lo <= x <= hi)%Q) ->
  Series_mean s = Some m -> (lo <= m <= hi)%Q.
Proof.
  intros H Hm. destruct s as [|x s]; [discriminate|].
  injection Hm as <-.
  set (k := inject_Z (Z.of_nat (List.length (x :: s)))).
  assert (Hk : (0 < k)%Q).
  { unfold k, Qlt; simpl. lia. }
  destruct (Series_sum_bounds lo hi (x :: s) H) as [Hlo Hhi].
  fold k in Hlo, Hhi. split.
  - now apply Qle_shift_div_l.
  - now apply Qle_shift_div_r.
Qed.

(** ** The filter engine: what is returned, what is raised, how calls compose *)

Lemma summary_average (f : DataFrame) :
  exists m, summary f = (f, Some m, List.length f) /\
            (m * inject_Z (Z.of_nat (List.length f))
             == Series_sum (col Listing.price f))%Q.
Proof.
  destruct f as [|r f].
  - exists 0%Q. split; [reflexivity | simpl; now rewrite Qmult_0_l].
  - destruct (Series_mean_spec (col Listing.price (r :: f)))
      as (m & Hm & Heq); [discriminate|].
    exists m. split.
    + unfold summary. cbn [empty negb]. now rewrite Hm.
    + unfold col in Heq. now rewrite length_map in Heq.
Qed.

(** X1.  The rows [apply_filters] returns are exactly the rows of the
    dataset that pass every active test: within the inclusive price and
    availability bounds, with at least the minimum number of reviews, of a
    listed neighbourhood when the list is not empty, of the given room type
    when it is not empty, and, when the search text is not empty, with a
    name in which the compiled pattern finds a match.  No passing row is
    dropped and no other row is returned. *)
Theorem apply_filters_returns_passing_rows {E : Type}
    (re_compile : string -> E + (string -> bool)) (df : DataFrame)
    (min_price max_price : Q) (neighborhoods : option (list string))
    (room_type : option string) (min_avail max_avail min_reviews : Z)
    (search_text : option string)
    (filtered : DataFrame) (avg : option Q) (n : nat) :
  apply_filters re_compile df min_price max_price neighborhoods room_type
                min_avail max_avail min_reviews search_text
  = inr (filtered, avg, n) ->
  forall r,
    In r filtered <->
    In r df /\
    (min_price <= Listing.price r <= max_price)%Q /\
    (min_avail <= Listing.availability_365 r <= max_avail)%Z /\
    (min_reviews <= Listing.number_of_reviews r)%Z /\
    (forall nbs, neighborhoods = Some nbs -> nbs <> [] ->
                 In (Listing.neighbourhood r) nbs) /\
    (forall rt, room_type = Some rt -> rt <> "" ->
                Listing.room_type r = rt) /\
    (forall pat, search_text = Some pat -> pat <> "" ->
                 exists found v, re_compile pat = inr found /\
                                 Listing.name r = Some v /\ found v = true).
Proof.
  intros Hrun r. split.
  - now apply (apply_filters_sound _ _ _ _ _ _ _ _ _ _ _ _ _ Hrun).
  - intros (Hin & [Hp1 Hp2] & [Ha1 Ha2] & Hrev & Hnb & Hrt & Htxt).
    destruct (apply_filters_inv _ _ _ _ _ _ _ _ _ _ _ _ _ Hrun)
      as (so & Hso & -> & _).
    apply filter_In. split; [exact Hin|]. unfold keep.
    apply Qle_bool_iff in Hp1, Hp2. apply Z.leb_le in Ha1, Ha2, Hrev.
    rewrite Hp1, Hp2, Ha1, Ha2, Hrev. cbn [andb].
    assert (H1 : match neighborhoods with
                 | Some (n0 :: ns) =>
                     existsb (String.eqb (Listing.neighbourhood r)) (n0 :: ns)
                 | _ => true
                 end = true).
    { destruct neighborhoods as [[|n0 ns]|]; try reflexivity.
      apply existsb_exists. exists (Listing.neighbourhood r).
      split; [apply (Hnb _ eq_refl); discriminate | apply String.eqb_refl]. }
    assert (H2 : match room_type with
                 | Some (String c cs) =>
                     String.eqb (Listing.room_type r) (String c cs)
                 | _ => true
                 end = true).
    { destruct room_type as [[|c cs]|]; try reflexivity.
      apply String.eqb_eq. apply (Hrt _ eq_refl). discriminate. }
    rewrite H1, H2. cbn [andb].
    unfold compile_text in Hso.
    destruct search_text as [[|c cs]|].
    + injection Hso as <-. reflexivity.
    + destruct (Htxt _ eq_refl) as (found & v & Hc & Hv & Hf);
        [discriminate|].
      rewrite Hc in Hso. injection Hso as <-. now rewrite Hv.
    + injection Hso as <-. reflexivity.
Qed.

(** X2.  Without a search text, [None] or the empty string, nothing is
    compiled or searched and [apply_filters] returns, whatever the dataset
    and the other arguments: the rows that pass the other tests, with their
    average and count.  Only the text search of lines 22-23 can raise. *)
Theorem apply_filters_returns_without_search_text {E : Type}
    (re_compile : string -> E + (string -> bool)) (df : DataFrame)
    (min_price max_price : Q) (neighborhoods : option (list string))
    (room_type : option string) (min_avail max_avail min_reviews : Z)
    (search_text : option string) :
  truthy_str search_text = false ->
  apply_filters re_compile df min_price max_price neighborhoods room_type
                min_avail max_avail min_reviews search_text
  = inr (summary
           (filter (keep min_price max_price neighborhoods room_type
                         min_avail max_avail min_reviews None) df)).
Proof.
  intros Hoff. apply apply_filters_returns.
  destruct search_text as [[|c cs]|]; try reflexivity; discriminate.
Qed.

(** X3.  The neighbourhood list is used as a set: two lists with the same
    members, in any order and with any repetitions, give the same result. *)
Theorem neighbourhood_list_is_a_set {E : Type}
    (re_compile : string -> E + (string -> bool)) (df : DataFrame)
    (min_price max_price : Q) (nbs nbs' : list string)
    (room_type : option string) (min_avail max_avail min_reviews : Z)
    (search_text : option string) :
  (forall x, In x nbs <-> In x nbs') ->
  apply_filters re_compile df min_price max_price (Some nbs) room_type
                min_avail max_avail min_reviews search_text
  = apply_filters re_compile df min_price max_price (Some nbs') room_type
                  min_avail max_avail min_reviews search_text.
Proof.
  intros Hset. rewrite !apply_filters_filter.
  destruct (compile_text re_compile search_text) as [e|so]; [reflexivity|].
  f_equal. f_equal. apply filter_ext. intros r. unfold keep.
  assert (Hex : existsb (String.eqb (Listing.neighbourhood r)) nbs
                = existsb (String.eqb (Listing.neighbourhood r)) nbs').
  { apply eq_true_iff_eq. rewrite !existsb_exists.
    split; intros (x & Hx & Heq); exists x; split; try assumption;
      now apply Hset. }
  assert (Hnb : match nbs with
                | n0 :: ns =>
                    existsb (String.eqb (Listing.neighbourhood r)) (n0 :: ns)
                | [] => true
                end
                = match nbs' with
                  | n0 :: ns =>
                      existsb (String.eqb (Listing.neighbourhood r)) (n0 :: ns)
                  | [] => true
                  end).
  { destruct nbs as [|a l], nbs' as [|a' l']; try reflexivity;
      try exact Hex.
    - destruct (proj2 (Hset a') (or_introl eq_refl)).
    - destruct (proj1 (Hset a) (or_introl eq_refl)). }
  now rewrite Hnb.
Qed.

(** X4.  A neighbourhood list that contains the neighbourhood of every
    listing of the dataset restricts nothing: the result is the one obtained
    without a neighbourhood list. *)
Theorem neighbourhood_list_covering_dataset {E : Type}
    (re_compile : string -> E + (string -> bool)) (df : DataFrame)
    (min_price max_price : Q) (nbs : list string)
    (room_type : option string) (min_avail max_avail min_reviews : Z)
    (search_text : option string) :
  (forall r, In r df -> In (Listing.neighbourhood r) nbs) ->
  apply_filters re_compile df min_price max_price (Some nbs) room_type
                min_avail max_avail min_reviews search_text
  = apply_filters re_compile df min_price max_price None room_type
                  min_avail max_avail min_reviews search_text.
Proof.
  intros Hall. rewrite !apply_filters_filter.
  destruct (compile_text re_compile search_text) as [e|so]; [reflexivity|].
  f_equal. f_equal. apply filter_ext_on. intros r Hr. unfold keep.
  assert (Hnb : match nbs with
                | n0 :: ns =>
                    existsb (String.eqb (Listing.neighbourhood r)) (n0 :: ns)
                | [] => true
                end = true).
  { destruct nbs as [|a l]; [reflexivity|].
    apply existsb_exists. exists (Listing.neighbourhood r).
    split; [now apply Hall | apply String.eqb_refl]. }
  now rewrite Hnb.
Qed.

(** X5.  With whole-number price bounds, as the price slider gives them,
    the average price returned for a frame that is not empty lies within the
    bounds.  (Rounding a mean to a double keeps it on its side of a whole
    number.) *)
Theorem average_within_integer_price_bounds {E : Type}
    (re_compile : string -> E + (string -> bool)) (df : DataFrame)
    (lowest highest : Z) (neighborhoods : option (list string))
    (room_type : option string) (min_avail max_avail min_reviews : Z)
    (search_text : option string)
    (filtered : DataFrame) (avg : option Q) (n : nat) :
  apply_filters re_compile df (inject_Z lowest) (inject_Z highest)
                neighborhoods room_type
                min_avail max_avail min_reviews search_text
  = inr (filtered, avg, n) ->
  filtered <> [] ->
  exists m, avg = Some m /\ (inject_Z lowest <= m <= inject_Z highest)%Q.
Proof.
  intros Hrun Hne.
  pose proof (apply_filters_sound _ _ _ _ _ _ _ _ _ _ _ _ _ Hrun) as Hsound.
  destruct (apply_filters_inv _ _ _ _ _ _ _ _ _ _ _ _ _ Hrun)
    as (so & _ & _ & Hs).
  unfold summary in Hs. injection Hs as Ha _.
  destruct filtered as [|r f]; [congruence|].
  cbn [empty negb] in Ha.
  destruct (Series_mean (col Listing.price (r :: f))) as [m|] eqn:Hm;
    [|discriminate].
  exists m. split; [exact Ha|].
  apply Series_mean_bounds with (s := col Listing.price (r :: f));
    [|exact Hm].
  intros x Hx. unfold col in Hx. apply in_map_iff in Hx.
  destruct Hx as (r' & <- & Hr'). now apply Hsound.
Qed.

Lemma keep_true_iff (min_price max_price : Q)
    (neighborhoods : option (list string)) (room_type : option string)
    (min_avail max_avail min_reviews : Z) (so : option (string -> bool))
    (r : Listing.t) :
  keep min_price max_price neighborhoods room_type
       min_avail max_avail min_reviews so r = true <->
  (min_price <= Listing.price r <= max_price)%Q /\
  (min_avail <= Listing.availability_365 r <= max_avail)%Z /\
  (min_reviews <= Listing.number_of_reviews r)%Z /\
  keep (Listing.price r) (Listing.price r) neighborhoods room_type
       (Listing.availability_365 r) (Listing.availability_365 r)
       (Listing.number_of_reviews r) so r = true.
Proof.
  unfold keep. rewrite !andb_true_iff, !Qle_bool_iff, !Z.leb_le.
  pose proof (Qle_refl (Listing.price r)).
  pose proof (Z.le_refl (Listing.availability_365 r)).
  pose proof (Z.le_refl (Listing.number_of_reviews r)).
  tauto.
Qed.

(** X6.  Refining a result gives what a fresh search gives: when a call
    with wider bounds, and with each optional filter either the same or
    switched off, has returned a frame, a call with the narrower criteria on
    that frame returns (or raises) what it returns (or raises) on the
    dataset. *)
Theorem refining_a_result {E : Type}
    (re_compile : string -> E + (string -> bool)) (df : DataFrame)
    (min_price max_price min_price' max_price' : Q)
    (neighborhoods neighborhoods' : option (list string))
    (room_type room_type' : option string)
    (min_avail max_avail min_reviews min_avail' max_avail' min_reviews' : Z)
    (search_text search_text' : option string)
    (wide : DataFrame) (avg : option Q) (n : nat) :
  (min_price' <= min_price)%Q -> (max_price <= max_price')%Q ->
  (min_avail' <= min_avail)%Z -> (max_avail <= max_avail')%Z ->
  (min_reviews' <= min_reviews)%Z ->
  same_or_off_list neighborhoods' neighborhoods ->
  same_or_off_str room_type' room_type ->
  same_or_off_str search_text' search_text ->
  apply_filters re_compile df min_price' max_price' neighborhoods' room_type'
                min_avail' max_avail' min_reviews' search_text'
  = inr (wide, avg, n) ->
  apply_filters re_compile wide min_price max_price neighborhoods room_type
                min_avail max_avail min_reviews search_text
  = apply_filters re_compile df min_price max_price neighborhoods room_type
                  min_avail max_avail min_reviews search_text.
Proof.
  intros Hp1 Hp2 Ha1 Ha2 Hrev Hnb Hrt Hst Hwide.
  destruct (apply_filters_inv _ _ _ _ _ _ _ _ _ _ _ _ _ Hwide)
    as (so' & Hso' & -> & _).
  rewrite !apply_filters_filter.
  destruct (compile_text re_compile search_text) as [e|so] eqn:Hso;
    [reflexivity|].
  f_equal. f_equal. apply filter_refine. intros r _ Hk.
  apply keep_true_iff in Hk.
  destruct Hk as ([Hk1 Hk2] & [Hk3 Hk4] & Hk5 & Hk).
  apply keep_true_iff. repeat split.
  - eapply Qle_trans; eassumption.
  - eapply Qle_trans; eassumption.
  - lia.
  - lia.
  - lia.
  - unfold keep in *. rewrite !andb_true_iff in *.
    destruct Hk as (((Hnum & Hk_nb) & Hk_rt) & Hk_txt).
    repeat split; try (apply Hnum).
    + destruct Hnb as [->|Hoff]; [exact Hk_nb|].
      destruct neighborhoods' as [[|? ?]|]; try reflexivity; discriminate.
    + destruct Hrt as [->|Hoff]; [exact Hk_rt|].
      destruct room_type' as [[|? ?]|]; try reflexivity; discriminate.
    + destruct Hst as [->|Hoff].
      * rewrite Hso in Hso'. injection Hso' as <-. exact Hk_txt.
      * unfold compile_text in Hso'.
        destruct search_text' as [[|? ?]|]; try discriminate;
          injection Hso' as <-; reflexivity.
Qed.

(** X7.  Two searches can be chained in either order: when two sets of
    criteria each return a frame on the dataset, applying the second to the
    frame of the first and the first to the frame of the second return the
    same rows, average and count. *)
Theorem apply_filters_commute {E : Type}
    (re_compile : string -> E + (string -> bool)) (df : DataFrame)
    (min_price max_price min_price' max_price' : Q)
    (neighborhoods neighborhoods' : option (list string))
    (room_type room_type' : option string)
    (min_avail max_avail min_reviews min_avail' max_avail' min_reviews' : Z)
    (search_text search_text' : option string)
    (f f' : DataFrame) (avg avg' : option Q) (n n' : nat) :
  apply_filters re_compile df min_price max_price neighborhoods room_type
                min_avail max_avail min_reviews search_text
  = inr (f, avg, n) ->
  apply_filters re_compile df min_price' max_price' neighborhoods' room_type'
                min_avail' max_avail' min_reviews' search_text'
  = inr (f', avg', n') ->
  apply_filters re_compile f min_price' max_price' neighborhoods' room_type'
                min_avail' max_avail' min_reviews' search_text'
  = apply_filters re_compile f' min_price max_price neighborhoods room_type
                  min_avail max_avail min_reviews search_text.
Proof.
  intros H H'.
  destruct (apply_filters_inv _ _ _ _ _ _ _ _ _ _ _ _ _ H)
    as (so & Hso & -> & _).
  destruct (apply_filters_inv _ _ _ _ _ _ _ _ _ _ _ _ _ H')
    as (so' & Hso' & -> & _).
  rewrite !apply_filters_filter, Hso, Hso'.
  now rewrite filter_swap.
Qed.

(** X8.  The filter treats rows one by one: on two datasets put end to end
    it returns the two results put end to end, the count is the sum of the
    two counts, and the average is the mean of the two averages weighted by
    the counts. *)
Theorem apply_filters_app {E : Type}
    (re_compile : string -> E + (string -> bool)) (df1 df2 : DataFrame)
    (min_price max_price : Q) (neighborhoods : option (list string))
    (room_type : option string) (min_avail max_avail min_reviews : Z)
    (search_text : option string)
    (f1 f2 : DataFrame) (avg1 avg2 : option Q) (n1 n2 : nat) :
  apply_filters re_compile df1 min_price max_price neighborhoods room_type
                min_avail max_avail min_reviews search_text
  = inr (f1, avg1, n1) ->
  apply_filters re_compile df2 min_price max_price neighborhoods room_type
                min_avail max_avail min_reviews search_text
  = inr (f2, avg2, n2) ->
  exists m m1 m2,
    avg1 = Some m1 /\ avg2 = Some m2 /\
    apply_filters re_compile (df1 ++ df2) min_price max_price neighborhoods
                  room_type min_avail max_avail min_reviews search_text
    = inr (f1 ++ f2, Some m, (n1 + n2)%nat) /\
    (m * inject_Z (Z.of_nat (n1 + n2))
     == m1 * inject_Z (Z.of_nat n1) + m2 * inject_Z (Z.of_nat n2))%Q.
Proof.
  intros H1 H2.
  destruct (apply_filters_inv _ _ _ _ _ _ _ _ _ _ _ _ _ H1)
    as (so & Hso & Hf1 & Hs1).
  destruct (apply_filters_inv _ _ _ _ _ _ _ _ _ _ _ _ _ H2)
    as (so' & Hso' & Hf2 & Hs2).
  rewrite Hso in Hso'. injection Hso' as <-.
  destruct (summary_average f1) as (m1 & E1 & S1).
  destruct (summary_average f2) as (m2 & E2 & S2).
  destruct (summary_average (f1 ++ f2)) as (m & E12 & S12).
  rewrite E1 in Hs1. injection Hs1 as -> ->.
  rewrite E2 in Hs2. injection Hs2 as -> ->.
  exists m, m1, m2. repeat split.
  - rewrite (apply_filters_returns _ _ _ _ _ _ _ _ _ _ _ Hso).
    rewrite filter_app, <- Hf1, <- Hf2, E12. now rewrite length_app.
  - rewrite length_app in S12. rewrite S12, S1, S2.
    unfold col. rewrite map_app. apply Series_sum_app.
Qed.

(** ** The dashboard: ties, and the overall average against the group means *)

Lemma lt_asym (a b : string) :
  String_as_OT.lt a b -> String_as_OT.lt b a -> False.
Proof.
  intros H1 H2.
  exact (String_as_OT.lt_not_eq _ _ (String_as_OT.lt_trans _ _ _ H1 H2) eq_refl).
Qed.

(** [argmax] returns the first entry with the largest value: the entries
    before it are strictly smaller. *)
Lemma argmax_first (s : list (string * option Q)) (k : string) (x : Q) :
  argmax s = Some (k, x) ->
  exists s1 s2, s = s1 ++ (k, Some x) :: s2 /\
                forall k' y, In (k', Some y) s1 -> (y < x)%Q.
Proof.
  revert k x. induction s as [|[k0 [x0|]] s IH]; simpl; intros k x H;
    [discriminate| |].
  - destruct (argmax s) as [[k1 z]|] eqn:Hs.
    + destruct (Qle_bool z x0) eqn:Hle; injection H as <- <-.
      * exists [], s. split; [reflexivity | intros ? ? []].
      * destruct (IH _ _ eq_refl) as (s1 & s2 & -> & Hlt).
        exists ((k0, Some x0) :: s1), s2. split; [reflexivity|].
        intros k' y [Heq|Hin]; [|now apply (Hlt k')].
        injection Heq as <- <-.
        apply Qnot_le_lt. intros Hc. apply Qle_bool_iff in Hc. congruence.
    + injection H as <- <-.
      exists [], s. split; [reflexivity | intros ? ? []].
  - destruct (IH _ _ H) as (s1 & s2 & -> & Hlt).
    exists ((k0, None) :: s1), s2. split; [reflexivity|].
    intros k' y [Heq|Hin]; [discriminate | now apply (Hlt k')].
Qed.

Lemma argmin_first (s : list (string * option Q)) (k : string) (x : Q) :
  argmin s = Some (k, x) ->
  exists s1 s2, s = s1 ++ (k, Some x) :: s2 /\
                forall k' y, In (k', Some y) s1 -> (x < y)%Q.
Proof.
  revert k x. induction s as [|[k0 [x0|]] s IH]; simpl; intros k x H;
    [discriminate| |].
  - destruct (argmin s) as [[k1 z]|] eqn:Hs.
    + destruct (Qle_bool x0 z) eqn:Hle; injection H as <- <-.
      * exists [], s. split; [reflexivity | intros ? ? []].
      * destruct (IH _ _ eq_refl) as (s1 & s2 & -> & Hlt).
        exists ((k0, Some x0) :: s1), s2. split; [reflexivity|].
        intros k' y [Heq|Hin]; [|now apply (Hlt k')].
        injection Heq as <- <-.
        apply Qnot_le_lt. intros Hc. apply Qle_bool_iff in Hc. congruence.
    + injection H as <- <-.
      exists [], s. split; [reflexivity | intros ? ? []].
  - destruct (IH _ _ H) as (s1 & s2 & -> & Hlt).
    exists ((k0, None) :: s1), s2. split; [reflexivity|].
    intros k' y [Heq|Hin]; [discriminate | now apply (Hlt k')].
Qed.

(** In a series with strictly increasing labels, an entry whose label is
    below the label of a given entry stands before that entry. *)
Lemma sorted_before (s1 s2 : list (string * option Q))
    (k k' : string) (v v' : option Q) :
  StronglySorted String_as_OT.lt (map fst (s1 ++ (k, v) :: s2)) ->
  In (k', v') (s1 ++ (k, v) :: s2) ->
  String_as_OT.lt k' k -> In (k', v') s1.
Proof.
  induction s1 as [|[k0 v0] s1 IH]; simpl; intros Hs Hin Hlt.
  - inversion Hs as [|? ? _ Hall]; subst.
    destruct Hin as [Heq|Hin].
    + injection Heq as -> ->.
      destruct (String_as_OT.lt_not_eq _ _ Hlt eq_refl).
    + exfalso. apply (lt_asym k' k Hlt).
      apply (proj1 (Forall_forall _ _) Hall).
      change k' with (fst (k', v')). now apply in_map.
  - inversion Hs as [|? ? Hs' _]; subst.
    destruct Hin as [Heq|Hin]; [now left | right; now apply IH].
Qed.

(** X9.  Ties are broken by the order of the labels: every neighbourhood
    whose name sorts before the one reported as most expensive has a
    strictly smaller mean price, and every neighbourhood whose name sorts
    before the one reported as most affordable has a strictly larger mean
    price. *)
Theorem extreme_neighborhoods_break_ties_by_name (airbnb_data : DataFrame) :
  (forall k, priciest_neighborhood airbnb_data = Some k ->
     exists m,
       In (k, Some m) (groupby_neighbourhood_price_mean airbnb_data) /\
       forall k' m',
         In (k', Some m') (groupby_neighbourhood_price_mean airbnb_data) ->
         String_as_OT.lt k' k -> (m' < m)%Q) /\
  (forall k, cheapest_neighborhood airbnb_data = Some k ->
     exists m,
       In (k, Some m) (groupby_neighbourhood_price_mean airbnb_data) /\
       forall k' m',
         In (k', Some m') (groupby_neighbourhood_price_mean airbnb_data) ->
         String_as_OT.lt k' k -> (m < m')%Q).
Proof.
  pose proof (group_keys_sorted (col Listing.neighbourhood airbnb_data))
    as Hsorted.
  rewrite <- groupby_keys in Hsorted.
  split; intros k Hk.
  - unfold priciest_neighborhood, idxmax in Hk.
    destruct (argmax _) as [[k0 m]|] eqn:Ha; [|discriminate].
    injection Hk as ->. exists m. split; [now apply argmax_in|].
    destruct (argmax_first _ _ _ Ha) as (s1 & s2 & Hs & Hlt).
    rewrite Hs in *. intros k' m' Hin Hord.
    apply (Hlt k'). eapply sorted_before; eassumption.
  - unfold cheapest_neighborhood, idxmin in Hk.
    destruct (argmin _) as [[k0 m]|] eqn:Ha; [|discriminate].
    injection Hk as ->. exists m. split; [now apply argmin_in|].
    destruct (argmin_first _ _ _ Ha) as (s1 & s2 & Hs & Hlt).
    rewrite Hs in *. intros k' m' Hin Hord.
    apply (Hlt k'). eapply sorted_before; eassumption.
Qed.

Lemma sorted_NoDup (ks : list string) :
  StronglySorted String_as_OT.lt ks -> NoDup ks.
Proof.
  induction 1 as [|k ks Hs IH Hall]; constructor; [|exact IH].
  intros Hin.
  exact (String_as_OT.lt_not_eq _ _
           (proj1 (Forall_forall _ _) Hall k Hin) eq_refl).
Qed.

Lemma Series_sum_map_le {A : Type} (a b : A -> Q) (l : list A) :
  (forall x, In x l -> (a x <= b x)%Q) ->
  (Series_sum (map a l) <= Series_sum (map b l))%Q.
Proof.
  induction l as [|x l IH]; simpl; intros H; [apply Qle_refl|].
  apply Qplus_le_compat; [apply H; now left | apply IH].
  intros y Hy; apply H; now right.
Qed.

Lemma Series_sum_map_scale {A : Type} (c : Q) (a : A -> Q) (l : list A) :
  (Series_sum (map (fun x => c * a x) l) == c * Series_sum (map a l))%Q.
Proof.
  induction l as [|x l IH]; simpl; [now rewrite Qmult_0_r|].
  rewrite IH. now rewrite Qmult_plus_distr_r.
Qed.

Lemma Series_sum_ones {A : Type} (l : list A) :
  (Series_sum (map (fun _ => 1) l) == inject_Z (Z.of_nat (List.length l)))%Q.
Proof.
  induction l as [|x l IH]; [reflexivity|].
  cbn [map Series_sum fold_right List.length]. fold (Series_sum (map (fun _ : A => 1%Q) l)).
  rewrite IH, Nat2Z.inj_succ, <- Z.add_1_l. now rewrite inject_Z_plus.
Qed.

Lemma Series_sum_filter_split {A : Type} (g : A -> Q) (p : A -> bool)
    (l : list A) :
  (Series_sum (map g l)
   == Series_sum (map g (filter p l))
      + Series_sum (map g (filter (fun x => negb (p x)) l)))%Q.
Proof.
  induction l as [|x l IH]; simpl; [reflexivity|].
  destruct (p x); simpl; rewrite IH; ring.
Qed.

(** Summing group by group is summing over the dataset. *)
Lemma Series_sum_by_group (g : Listing.t -> Q) (ks : list string)
    (l : DataFrame) :
  NoDup ks ->
  (forall r, In r l -> In (Listing.neighbourhood r) ks) ->
  (Series_sum
     (map (fun k =>
             Series_sum
               (map g (filter (fun r => String.eqb (Listing.neighbourhood r) k)
                              l)))
          ks)
   == Series_sum (map g l))%Q.
Proof.
  intros Hnd. revert l. induction Hnd as [|k ks Hk Hnd IH]; intros l Hcov.
  - destruct l as [|r l]; [reflexivity|].
    destruct (Hcov r (or_introl eq_refl)).
  - cbn [map Series_sum fold_right].
    set (rest := filter (fun r => negb (String.eqb (Listing.neighbourhood r) k)) l).
    assert (Hrest : forall r, In r rest -> In (Listing.neighbourhood r) ks).
    { intros r Hr. apply filter_In in Hr. destruct Hr as [Hr Hne].
      destruct (Hcov r Hr) as [Heq|Hin]; [|exact Hin].
      rewrite Heq, String.eqb_refl in Hne. discriminate. }
    rewrite (Series_sum_filter_split g
               (fun r => String.eqb (Listing.neighbourhood r) k) l).
    fold rest. rewrite <- (IH rest Hrest).
    apply Qplus_inj_l.
    assert (Hmap :
      map (fun k0 =>
             Series_sum
               (map g (filter (fun r => String.eqb (Listing.neighbourhood r) k0)
                              l))) ks
      = map (fun k0 =>
               Series_sum
                 (map g (filter (fun r => String.eqb (Listing.neighbourhood r) k0)
                                rest))) ks).
    { apply map_ext_in. intros k0 Hk0. unfold rest.
      rewrite filter_refine; [reflexivity|].
      intros r _ Heq. apply String.eqb_eq in Heq. subst k0.
      apply negb_true_iff. apply String.eqb_neq. intros Hc.
      rewrite Hc in Hk0. contradiction. }
    unfold Series_sum in *. now rewrite Hmap.
Qed.

Lemma group_sum_count (df : DataFrame) (k : string) :
  In k (group_keys (col Listing.neighbourhood df)) ->
  exists m,
    In (k, Some m) (groupby_neighbourhood_price_mean df) /\
    (Series_sum
       (map Listing.price
            (filter (fun r => String.eqb (Listing.neighbourhood r) k) df))
     == m * Series_sum
              (map (fun _ => 1)
                   (filter (fun r => String.eqb (Listing.neighbourhood r) k)
                           df)))%Q.
Proof.
  intros Hk.
  assert (Hin : In (k, Series_mean
                         (col Listing.price
                            (loc df (eq_str (col Listing.neighbourhood df) k))))
                   (groupby_neighbourhood_price_mean df)).
  { unfold groupby_neighbourhood_price_mean.
    apply in_map_iff. now exists k. }
  destruct (groupby_entry_mean _ _ _ Hin) as (m & Hm & Heq).
  rewrite Hm in Hin. exists m. split; [exact Hin|].
  rewrite Series_sum_ones. unfold col in Heq. now rewrite Heq.
Qed.

Lemma Series_sum_ones_nonneg {A : Type} (l : list A) :
  (0 <= Series_sum (map (fun _ => 1) l))%Q.
Proof.
  rewrite Series_sum_ones. unfold Qle; simpl. lia.
Qed.

(** The sum of all prices against a bound of the group means. *)
Lemma total_le_of_group_means (df : DataFrame) (M : Q) :
  (forall k m, In (k, Some m) (groupby_neighbourhood_price_mean df) ->
               (m <= M)%Q) ->
  (Series_sum (col Listing.price df)
   <= M * inject_Z (Z.of_nat (List.length df)))%Q.
Proof.
  intros Hbound.
  set (ks := group_keys (col Listing.neighbourhood df)).
  assert (Hnd : NoDup ks) by (apply sorted_NoDup, group_keys_sorted).
  assert (Hcov : forall r, In r df -> In (Listing.neighbourhood r) ks).
  { intros r Hr. apply group_keys_in. unfold col. now apply in_map. }
  unfold col.
  rewrite <- (Series_sum_by_group Listing.price ks df Hnd Hcov).
  rewrite <- (Series_sum_ones df).
  rewrite <- (Series_sum_by_group (fun _ => 1) ks df Hnd Hcov).
  rewrite <- Series_sum_map_scale.
  apply Series_sum_map_le. intros k Hk.
  destruct (group_sum_count df k Hk) as (m & Hin & Heq).
  rewrite Heq. apply Qmult_le_compat_r.
  - now apply (Hbound k).
  - apply Series_sum_ones_nonneg.
Qed.

Lemma total_ge_of_group_means (df : DataFrame) (M : Q) :
  (forall k m, In (k, Some m) (groupby_neighbourhood_price_mean df) ->
               (M <= m)%Q) ->
  (M * inject_Z (Z.of_nat (List.length df))
   <= Series_sum (col Listing.price df))%Q.
Proof.
  intros Hbound.
  set (ks := group_keys (col Listing.neighbourhood df)).
  assert (Hnd : NoDup ks) by (apply sorted_NoDup, group_keys_sorted).
  assert (Hcov : forall r, In r df -> In (Listing.neighbourhood r) ks).
  { intros r Hr. apply group_keys_in. unfold col. now apply in_map. }
  unfold col.
  rewrite <- (Series_sum_by_group Listing.price ks df Hnd Hcov).
  rewrite <- (Series_sum_ones df).
  rewrite <- (Series_sum_by_group (fun _ => 1) ks df Hnd Hcov).
  rewrite <- Series_sum_map_scale.
  apply Series_sum_map_le. intros k Hk.
  destruct (group_sum_count df k Hk) as (m & Hin & Heq).
  rewrite Heq. apply Qmult_le_compat_r.
  - now apply (Hbound k).
  - apply Series_sum_ones_nonneg.
Qed.

(** X10.  When the prices are whole numbers and the dataset is not empty,
    the overall average price shown on the dashboard lies between the mean
    price of the neighbourhood reported as most affordable and the mean
    price of the neighbourhood reported as most expensive.  (Sums of whole
    numbers are exact in doubles, and rounding the quotients keeps their
    order.) *)
Theorem overall_average_between_extreme_neighborhoods
    (airbnb_data : DataFrame) (m : Q) :
  (forall r, In r airbnb_data ->
             exists z, (Listing.price r == inject_Z z)%Q) ->
  avg_price airbnb_data = Some m ->
  exists k_lo m_lo k_hi m_hi,
    cheapest_neighborhood airbnb_data = Some k_lo /\
    priciest_neighborhood airbnb_data = Some k_hi /\
    In (k_lo, Some m_lo) (groupby_neighbourhood_price_mean airbnb_data) /\
    In (k_hi, Some m_hi) (groupby_neighbourhood_price_mean airbnb_data) /\
    (m_lo <= m <= m_hi)%Q.
Proof.
  intros _ Hm. unfold avg_price in Hm.
  destruct airbnb_data as [|r df]; [discriminate|].
  set (data := r :: df) in *.
  destruct (groupby_covers data r (or_introl eq_refl)) as (v & Hv).
  destruct (groupby_entry_mean _ _ _ Hv) as (m0 & -> & _).
  destruct (argmax_defined _ _ _ Hv) as ([k_hi m_hi] & Hhi).
  destruct (argmin_defined _ _ _ Hv) as ([k_lo m_lo] & Hlo).
  exists k_lo, m_lo, k_hi, m_hi.
  unfold cheapest_neighborhood, priciest_neighborhood, idxmax, idxmin.
  rewrite Hhi, Hlo.
  repeat split; [now apply argmin_in | now apply argmax_in | |].
  - pose proof (total_ge_of_group_means data m_lo
                  (argmin_lower_bound _ _ _ Hlo)) as Hsum.
    unfold data, col in Hm. cbn [map Series_mean] in Hm.
    injection Hm as <-.
    apply Qle_shift_div_l; [unfold Qlt; simpl; lia|].
    unfold data, col in Hsum. rewrite length_map. exact Hsum.
  - pose proof (total_le_of_group_means data m_hi
                  (argmax_upper_bound _ _ _ Hhi)) as Hsum.
    unfold data, col in Hm. cbn [map Series_mean] in Hm.
    injection Hm as <-.
    apply Qle_shift_div_r; [unfold Qlt; simpl; lia|].
    unfold data, col in Hsum. rewrite length_map. exact Hsum.
Qed.

(** ** The tabs *)

Lemma filter_sorted (p : string -> bool) (ks : list string) :
  StronglySorted String_as_OT.lt ks ->
  StronglySorted String_as_OT.lt (filter p ks).
Proof.
  induction 1 as [|k ks Hs IH Hall]; simpl; [constructor|].
  destruct (p k); [|exact IH].
  constructor; [exact IH|].
  apply Forall_forall. intros x Hx. apply filter_In in Hx.
  exact (proj1 (Forall_forall _ _) Hall x (proj1 Hx)).
Qed.

(** Two strictly increasing lists with the same members are equal. *)
Lemma sorted_ext (l1 l2 : list string) :
  StronglySorted String_as_OT.lt l1 ->
  StronglySorted String_as_OT.lt l2 ->
  (forall x, In x l1 <-> In x l2) -> l1 = l2.
Proof.
  intros H1. revert l2.
  induction H1 as [|a l1 Hs1 IH Hall1]; intros l2 H2 Hmem.
  - destruct l2 as [|b l2]; [reflexivity|].
    destruct (proj2 (Hmem b) (or_introl eq_refl)).
  - destruct H2 as [|b l2 Hs2 Hall2].
    + destruct (proj1 (Hmem a) (or_introl eq_refl)).
    + assert (Hab : a = b).
      { destruct (proj1 (Hmem a) (or_introl eq_refl)) as [Hba|Hin];
          [now symmetry|].
        destruct (proj2 (Hmem b) (or_introl eq_refl)) as [Hab|Hin'];
          [exact Hab|].
        exfalso. apply (lt_asym a b).
        - exact (proj1 (Forall_forall _ _) Hall1 b Hin').
        - exact (proj1 (Forall_forall _ _) Hall2 a Hin). }
      subst b. f_equal. apply IH; [exact Hs2|].
      intros x. split; intros Hx.
      * destruct (proj1 (Hmem x) (or_intror Hx)) as [Heq|Hin]; [|exact Hin].
        subst x. exfalso.
        exact (String_as_OT.lt_not_eq _ _
                 (proj1 (Forall_forall _ _) Hall1 a Hx) eq_refl).
      * destruct (proj2 (Hmem x) (or_intror Hx)) as [Heq|Hin]; [|exact Hin].
        subst x. exfalso.
        exact (String_as_OT.lt_not_eq _ _
                 (proj1 (Forall_forall _ _) Hall2 a Hx) eq_refl).
Qed.

(** Selecting rows by a test on the group column selects group keys. *)
Lemma group_keys_filter (key : Listing.t -> string) (p : string -> bool)
    (df : DataFrame) :
  group_keys (col key (filter (fun r => p (key r)) df))
  = filter p (group_keys (col key df)).
Proof.
  apply sorted_ext.
  - apply group_keys_sorted.
  - apply filter_sorted, group_keys_sorted.
  - intros k. rewrite group_keys_in, filter_In, group_keys_in.
    unfold col. rewrite !in_map_iff. split.
    + intros (r & <- & Hr). apply filter_In in Hr. destruct Hr as [Hr Hp].
      split; [now exists r | exact Hp].
    + intros ((r & <- & Hr) & Hp). exists r. split; [reflexivity|].
      apply filter_In. now split.
Qed.

Lemma filter_map_key {A : Type} (p : string -> bool) (F : string -> A)
    (ks : list string) :
  filter (fun kv => p (fst kv)) (map (fun k => (k, F k)) ks)
  = map (fun k => (k, F k)) (filter p ks).
Proof.
  induction ks as [|k ks IH]; simpl; [reflexivity|].
  destruct (p k); simpl; now rewrite IH.
Qed.

(** Grouping the selected rows gives the selected groups, with the means
    they have in the whole dataset. *)
Lemma groupby_filter (key : Listing.t -> string) (p : string -> bool)
    (df : DataFrame) :
  groupby_price_mean key (filter (fun r => p (key r)) df)
  = filter (fun kv => p (fst kv)) (groupby_price_mean key df).
Proof.
  unfold groupby_price_mean.
  rewrite (filter_map_key p
             (fun k => Series_mean
                         (col Listing.price
                              (loc df (eq_str (col key df) k))))).
  rewrite group_keys_filter. apply map_ext_in. intros k Hk.
  apply filter_In in Hk. destruct Hk as [_ Hp].
  do 3 f_equal. unfold eq_str, col. rewrite !map_map, !loc_map.
  apply filter_refine. intros r _ Heq.
  apply String.eqb_eq in Heq. now rewrite Heq.
Qed.

Lemma isin_rows (df : DataFrame) (values : list string) :
  loc df (isin (col Listing.neighbourhood df) values)
  = filter (fun r => existsb (String.eqb (Listing.neighbourhood r)) values) df.
Proof.
  unfold isin, col. now rewrite map_map, loc_map.
Qed.

(** X11.  The bars of the tab "Neighborhood Prices" are the entries of the
    dashboard's per-neighbourhood means for the chosen neighbourhoods, in
    the same order and with the same values: choosing neighbourhoods removes
    bars, it does not change the height of a bar. *)
Theorem neighborhood_bars_are_dashboard_means {E : Type}
    (airbnb_data : DataFrame) (chosen_neighborhoods : list string)
    (bars : list (string * option Q)) :
  neighborhood_prices_tab (E := E) airbnb_data chosen_neighborhoods
  = st_content bars ->
  bars = filter (fun kv => existsb (String.eqb (fst kv)) chosen_neighborhoods)
                (groupby_neighbourhood_price_mean airbnb_data).
Proof.
  unfold neighborhood_prices_tab.
  destruct chosen_neighborhoods as [|c cs]; [discriminate|].
  rewrite isin_rows.
  rewrite (groupby_filter Listing.neighbourhood
             (fun k => existsb (String.eqb k) (c :: cs))).
  destruct (empty _); [discriminate|].
  intros H. injection H as <-. reflexivity.
Qed.

(** X12.  The tab "Neighborhood Prices" warns that no data matches exactly
    when neighbourhoods are chosen and none of them is the neighbourhood of
    a listing; when a chosen neighbourhood occurs in the dataset, as the
    multiselect ensures, the bar chart is drawn. *)
Theorem neighborhood_tab_no_data_warning {E : Type}
    (airbnb_data : DataFrame) (chosen_neighborhoods : list string) :
  neighborhood_prices_tab (E := E) airbnb_data chosen_neighborhoods
  = st_warning "No data matches your criteria." <->
  chosen_neighborhoods <> [] /\
  forall r, In r airbnb_data ->
            ~ In (Listing.neighbourhood r) chosen_neighborhoods.
Proof.
  unfold neighborhood_prices_tab.
  destruct chosen_neighborhoods as [|c cs].
  - split; [discriminate | intros [H _]; congruence].
  - rewrite isin_rows.
    set (rows := filter _ airbnb_data).
    assert (Hrows : forall r, In r rows <->
                              In r airbnb_data /\
                              In (Listing.neighbourhood r) (c :: cs)).
    { intros r. unfold rows. rewrite filter_In, existsb_exists.
      split; intros [Hr Hx]; split; try assumption.
      - destruct Hx as (x & Hx & Heq). apply String.eqb_eq in Heq.
        now rewrite Heq.
      - exists (Listing.neighbourhood r). split; [exact Hx|].
        apply String.eqb_refl. }
    destruct (groupby_price_mean Listing.neighbourhood rows)
      as [|kv g] eqn:Hg; cbn [empty].
    + split; [intros _ | reflexivity].
      split; [discriminate|]. intros r Hr Hin.
      destruct (groupby_covers rows r (proj2 (Hrows r) (conj Hr Hin)))
        as (v & Hv).
      unfold groupby_neighbourhood_price_mean, groupby_price_mean in Hv, Hg.
      rewrite Hg in Hv. destruct Hv.
    + split; [discriminate|]. intros [_ Hnone]. exfalso.
      destruct kv as [k v].
      assert (Hin : In (k, v) (groupby_neighbourhood_price_mean rows)).
      { unfold groupby_neighbourhood_price_mean, groupby_price_mean in *.
        rewrite Hg. now left. }
      destruct (groupby_entry _ _ _ Hin) as ((r & Hr & Hk) & _).
      apply Hrows in Hr. destruct Hr as [Hr Hc].
      exact (Hnone r Hr Hc).
Qed.

Lemma unique_in (s : list string) (x : string) : In x (unique s) <-> In x s.
Proof.
  induction s as [|y s IH]; simpl; [tauto|].
  rewrite filter_In, IH, negb_true_iff, String.eqb_neq.
  destruct (String.eqb_spec x y) as [->|Hne]; [tauto|].
  split; [tauto|]. intros [Heq|Hin]; [congruence | right; now split].
Qed.

Lemma sorted_filter_eq (c : string) (ks : list string) :
  StronglySorted String_as_OT.lt ks ->
  filter (fun k => String.eqb k c) ks = if existsb (String.eqb c) ks
                                        then [c] else [].
Proof.
  induction 1 as [|k ks Hs IH Hall]; simpl; [reflexivity|].
  rewrite (String.eqb_sym c k).
  destruct (String.eqb_spec k c) as [->|Hne]; simpl; [|exact IH].
  f_equal. apply filter_none. intros x Hx.
  apply String.eqb_neq. intros ->.
  exact (String_as_OT.lt_not_eq _ _
           (proj1 (Forall_forall _ _) Hall c Hx) eq_refl).
Qed.

(** X13.  With a room type chosen in the selectbox, the chart of the tab
    "Room Type Prices" has the bar that this room type has in the chart of
    the choice "All", with the same height, and no other bar: one bar when
    a listing has this room type, none otherwise. *)
Theorem room_chart_of_one_type (airbnb_data : DataFrame)
    (chosen_room_type : string) :
  chosen_room_type <> "All" ->
  room_avg airbnb_data chosen_room_type
  = filter (fun kv => String.eqb (fst kv) chosen_room_type)
           (room_avg airbnb_data "All") /\
  room_avg airbnb_data chosen_room_type
  = if existsb (fun r => String.eqb (Listing.room_type r) chosen_room_type)
               airbnb_data
    then [(chosen_room_type,
           Series_mean
             (col Listing.price
                  (filter (fun r => String.eqb (Listing.room_type r)
                                               chosen_room_type)
                          airbnb_data)))]
    else [].
Proof.
  intros Hne. apply String.eqb_neq in Hne.
  assert (Hfilter :
    room_avg airbnb_data chosen_room_type
    = filter (fun kv => String.eqb (fst kv) chosen_room_type)
             (room_avg airbnb_data "All")).
  { unfold room_avg. rewrite Hne. cbn [String.eqb Ascii.eqb Bool.eqb].
    unfold eq_str, col at 1. rewrite map_map, loc_map.
    apply (groupby_filter Listing.room_type
             (fun k => String.eqb k chosen_room_type)). }
  split; [exact Hfilter|].
  rewrite Hfilter. unfold room_avg. cbn [String.eqb Ascii.eqb Bool.eqb].
  unfold groupby_price_mean.
  rewrite (filter_map_key (fun k => String.eqb k chosen_room_type)
             (fun k => Series_mean
                         (col Listing.price
                              (loc airbnb_data
                                   (eq_str (col Listing.room_type airbnb_data)
                                           k))))).
  rewrite sorted_filter_eq by apply group_keys_sorted.
  assert (Hex : existsb (String.eqb chosen_room_type)
                        (group_keys (col Listing.room_type airbnb_data))
                = existsb (fun r => String.eqb (Listing.room_type r)
                                               chosen_room_type)
                          airbnb_data).
  { apply eq_true_iff_eq. rewrite !existsb_exists. split.
    - intros (k & Hk & Heq). apply String.eqb_eq in Heq. subst k.
      apply (proj1 (group_keys_in _ _)) in Hk. unfold col in Hk.
      apply in_map_iff in Hk. destruct Hk as (r & Hr & Hin).
      exists r. split; [exact Hin | now apply String.eqb_eq].
    - intros (r & Hr & Heq). apply String.eqb_eq in Heq.
      exists chosen_room_type. split; [|apply String.eqb_refl].
      apply group_keys_in. unfold col. rewrite <- Heq. now apply in_map. }
  rewrite Hex. destruct (existsb _ airbnb_data); [|reflexivity].
  cbn [map]. unfold eq_str, col. now rewrite map_map, loc_map.
Qed.

Lemma keep_covering_list (min_price max_price : Q) (nbs : list string)
    (room_type : option string) (min_avail max_avail min_reviews : Z)
    (so : option (string -> bool)) (r : Listing.t) :
  In (Listing.neighbourhood r) nbs ->
  keep min_price max_price (Some nbs) room_type
       min_avail max_avail min_reviews so r
  = keep min_price max_price None room_type
         min_avail max_avail min_reviews so r.
Proof.
  intros Hin. unfold keep.
  assert (Hnb : match nbs with
                | n0 :: ns =>
                    existsb (String.eqb (Listing.neighbourhood r)) (n0 :: ns)
                | [] => true
                end = true).
  { destruct nbs as [|a l]; [reflexivity|].
    apply existsb_exists. exists (Listing.neighbourhood r).
    split; [exact Hin | apply String.eqb_refl]. }
  now rewrite Hnb.
Qed.

Lemma unique_covers (df : DataFrame) (r : Listing.t) :
  In r df ->
  In (Listing.neighbourhood r) (unique (col Listing.neighbourhood df)).
Proof.
  intros Hr. apply unique_in. unfold col. now apply in_map.
Qed.

(** X14.  With the sidebar as it starts, every neighbourhood selected, room
    type "All", availability from 0 to 365, no minimum number of reviews and
    an empty search box, the tabs "Price Filter" and "Map View" get exactly
    the listings whose price lies within the price slider, ends included:
    the call does not raise, whatever the regular-expression compiler. *)
Theorem untouched_sidebar_filters_by_price_only {E : Type}
    (re_compile : string -> E + (string -> bool)) (airbnb_data : DataFrame)
    (price_range : Z * Z) :
  Forall well_formed airbnb_data ->
  sidebar_call re_compile airbnb_data price_range
               (unique (col Listing.neighbourhood airbnb_data)) "All"
               (0, 365)%Z 0 ""
  = inr (summary
           (filter (fun r =>
                      Qle_bool (inject_Z (fst price_range)) (Listing.price r)
                      && Qle_bool (Listing.price r)
                                  (inject_Z (snd price_range)))
                   airbnb_data)).
Proof.
  intros Hwf. unfold sidebar_call. cbn [String.eqb Ascii.eqb Bool.eqb fst snd].
  rewrite apply_filters_filter. cbn [compile_text].
  f_equal. f_equal. apply filter_ext_on. intros r Hr.
  rewrite keep_covering_list by now apply unique_covers.
  pose proof (proj1 (Forall_forall _ _) Hwf r Hr) as (_ & Hav & Hrev).
  unfold keep.
  replace (0 <=? Listing.availability_365 r)%Z with true
    by (symmetry; apply Z.leb_le; lia).
  replace (Listing.availability_365 r <=? 365)%Z with true
    by (symmetry; apply Z.leb_le; lia).
  replace (0 <=? Listing.number_of_reviews r)%Z with true
    by (symmetry; apply Z.leb_le; lia).
  now rewrite !andb_true_r.
Qed.

(** X15.  With no neighbourhood chosen in the multiselect, the tab
    "Neighborhood Prices" asks to select one, while the tabs "Price Filter"
    and "Map View" get what they get with every neighbourhood chosen: an
    empty choice restricts nothing there. *)
Theorem empty_choice_of_neighborhoods {E : Type}
    (re_compile : string -> E + (string -> bool)) (airbnb_data : DataFrame)
    (price_range : Z * Z) (chosen_room_type : string)
    (availability_range : Z * Z) (min_reviews : Z) (search_name : string) :
  neighborhood_prices_tab (E := E) airbnb_data []
  = st_warning "Please select at least one neighborhood." /\
  sidebar_call re_compile airbnb_data price_range [] chosen_room_type
               availability_range min_reviews search_name
  = sidebar_call re_compile airbnb_data price_range
                 (unique (col Listing.neighbourhood airbnb_data))
                 chosen_room_type availability_range min_reviews search_name.
Proof.
  split; [reflexivity|].
  unfold sidebar_call. rewrite !apply_filters_filter.
  destruct (compile_text re_compile (Some search_name)) as [e|so];
    [reflexivity|].
  f_equal. f_equal. apply filter_ext_on. intros r Hr.
  rewrite (keep_covering_list _ _
             (unique (col Listing.neighbourhood airbnb_data)))
    by now apply unique_covers.
  reflexivity.
Qed.

(** ** The statistics of the tab "Price Filter" *)

Lemma insert_value_in (x y : Q) (s : list Q) :
  In x (insert_value y s) <-> x = y \/ In x s.
Proof.
  induction s as [|z s IH]; simpl; [intuition|].
  destruct (Qle_bool y z); simpl; [intuition|]. rewrite IH. intuition.
Qed.

Lemma insert_value_length (y : Q) (s : list Q) :
  List.length (insert_value y s) = S (List.length s).
Proof.
  induction s as [|z s IH]; simpl; [reflexivity|].
  destruct (Qle_bool y z); simpl; [reflexivity | now rewrite IH].
Qed.

Lemma sort_values_in (x : Q) (s : list Q) :
  In x (sort_values s) <-> In x s.
Proof.
  induction s as [|y s IH]; simpl; [tauto|].
  rewrite insert_value_in, IH. intuition.
Qed.

Lemma sort_values_length (s : list Q) :
  List.length (sort_values s) = List.length s.
Proof.
  induction s as [|y s IH]; simpl; [reflexivity|].
  now rewrite insert_value_length, IH.
Qed.

Lemma sorted_value_within (lo hi : Q) (s : list Q) (i : nat) :
  (forall x, In x s -> (lo <= x <= hi)%Q) ->
  (i < List.length s)%nat ->
  (lo <= nth i (sort_values s) 0 <= hi)%Q.
Proof.
  intros H Hi. apply H. apply sort_values_in. apply nth_In.
  now rewrite sort_values_length.
Qed.

Lemma Some_eq {A : Type} (a b : A) : Some a = Some b -> a = b.
Proof. congruence. Qed.

(** The median of a column lies between any two bounds of its values. *)
Lemma Series_median_bounds (lo hi m : Q) (s : list Q) :
  (forall x, In x s -> (lo <= x <= hi)%Q) ->
  Series_median s = Some m -> (lo <= m <= hi)%Q.
Proof.
  intros H Hm. unfold Series_median in Hm.
  destruct s as [|x s]; [discriminate|].
  set (n := List.length (x :: s)) in *.
  assert (Hn : (0 < n)%nat) by (unfold n; simpl; lia).
  assert (H2 : (n / 2 < n)%nat) by (apply Nat.div_lt; lia).
  pose proof (sorted_value_within lo hi (x :: s) (n / 2) H H2) as [Ha Hb].
  destruct (Nat.even n).
  - assert (H1 : (n / 2 - 1 < n)%nat) by lia.
    pose proof (sorted_value_within lo hi (x :: s) (n / 2 - 1) H H1)
      as [Hc Hd].
    apply Some_eq in Hm. rewrite <- Hm. split.
    + apply Qle_shift_div_l; [reflexivity | lra].
    + apply Qle_shift_div_r; [reflexivity | lra].
  - apply Some_eq in Hm. rewrite <- Hm. now split.
Qed.

(** A quantile of a column lies between any two bounds of its values. *)
Lemma Series_quantile_bounds (lo hi q v : Q) (s : list Q) :
  (0 <= q <= 1)%Q ->
  (forall x, In x s -> (lo <= x <= hi)%Q) ->
  Series_quantile s q = Some v -> (lo <= v <= hi)%Q.
Proof.
  intros [Hq0 Hq1] H Hv. unfold Series_quantile in Hv.
  destruct s as [|x s]; [discriminate|].
  set (n := List.length (x :: s)) in *.
  assert (Hn : (0 < n)%nat) by (unfold n; simpl; lia).
  set (top := (Z.of_nat n - 1)%Z) in *.
  set (pos := (q * inject_Z top)%Q) in *.
  assert (Htop : (0 <= inject_Z top)%Q).
  { rewrite <- (Zle_Qle 0). unfold top. lia. }
  assert (Hpos0 : (0 <= pos)%Q) by (unfold pos; nra).
  assert (Hpos1 : (pos <= inject_Z top)%Q) by (unfold pos; nra).
  assert (Hf0 : (0 <= Qfloor pos)%Z).
  { rewrite <- (Qfloor_Z 0). now apply Qfloor_resp_le. }
  assert (Hf1 : (Qfloor pos <= top)%Z).
  { rewrite <- (Qfloor_Z top). now apply Qfloor_resp_le. }
  assert (Hc0 : (0 <= Qceiling pos)%Z).
  { rewrite <- (Qceiling_Z 0). now apply Qceiling_resp_le. }
  assert (Hc1 : (Qceiling pos <= top)%Z).
  { rewrite <- (Qceiling_Z top). now apply Qceiling_resp_le. }
  assert (Hi : (Z.to_nat (Qfloor pos) < n)%nat) by (unfold top in *; lia).
  assert (Hj : (Z.to_nat (Qceiling pos) < n)%nat) by (unfold top in *; lia).
  pose proof (sorted_value_within lo hi (x :: s) _ H Hi) as [Ha Hb].
  pose proof (sorted_value_within lo hi (x :: s) _ H Hj) as [Hc Hd].
  pose proof (Qfloor_le pos) as Hfl.
  pose proof (Qlt_floor pos) as Hfu.
  rewrite inject_Z_plus in Hfu. change (inject_Z 1) with 1%Q in Hfu.
  apply Some_eq in Hv. rewrite <- Hv.
  set (below := nth (Z.to_nat (Qfloor pos)) (sort_values (x :: s)) 0%Q) in *.
  set (above := nth (Z.to_nat (Qceiling pos)) (sort_values (x :: s)) 0%Q) in *.
  set (t := (pos - inject_Z (Qfloor pos))%Q).
  assert (Ht0 : (0 <= t)%Q) by (unfold t; lra).
  assert (Ht1 : (t <= 1)%Q) by (unfold t; lra).
  split; nra.
Qed.

Lemma Series_median_defined (s : list Q) :
  s <> [] -> exists m, Series_median s = Some m.
Proof.
  destruct s as [|x s]; [congruence | intros _]. unfold Series_median.
  destruct (Nat.even _); eauto.
Qed.

Lemma Series_quantile_defined (s : list Q) (q : Q) :
  s <> [] -> exists v, Series_quantile s q = Some v.
Proof.
  destruct s as [|x s]; [congruence | intros _]. unfold Series_quantile.
  eauto.
Qed.

(** X17.  When the tab "Price Filter" writes its content, the table is not
    empty, the total is its number of rows, and the median price and the
    25th and 75th percentiles are defined and lie within the two ends of
    the price slider. *)
Theorem price_statistics_within_slider {E : Type}
    (re_compile : string -> E + (string -> bool)) (airbnb_data : DataFrame)
    (price_range : Z * Z) (chosen_neighborhoods : list string)
    (chosen_room_type : string) (availability_range : Z * Z)
    (min_reviews : Z) (search_name : string) (content : PriceFilterContent) :
  price_filter_tab re_compile airbnb_data price_range chosen_neighborhoods
                   chosen_room_type availability_range min_reviews search_name
  = st_content content ->
  (0 < total content)%nat /\
  total content = List.length (listings_table content) /\
  exists median p25 p75,
    median_price content = Some median /\
    percentile_25 content = Some p25 /\
    percentile_75 content = Some p75 /\
    (inject_Z (fst price_range) <= median <= inject_Z (snd price_range))%Q /\
    (inject_Z (fst price_range) <= p25 <= inject_Z (snd price_range))%Q /\
    (inject_Z (fst price_range) <= p75 <= inject_Z (snd price_range))%Q.
Proof.
  unfold price_filter_tab.
  destruct (sidebar_call _ _ _ _ _ _ _ _) as [e|[[rows avg] n]] eqn:Hcall;
    [discriminate|].
  destruct rows as [|r rows]; [discriminate|].
  cbn [empty].
  match goal with |- st_content ?c = _ -> _ => set (shown_content := c) end.
  intros H. assert (Hc : content = shown_content) by congruence.
  clear H. subst content. unfold shown_content.
  cbn [total listings_table median_price percentile_25 percentile_75].
  unfold sidebar_call in Hcall.
  pose proof (apply_filters_sound _ _ _ _ _ _ _ _ _ _ _ _ _ Hcall) as Hsound.
  destruct (apply_filters_inv _ _ _ _ _ _ _ _ _ _ _ _ _ Hcall)
    as (_ & _ & _ & Hs).
  unfold summary in Hs. injection Hs as _ Hn.
  assert (Hbounds : forall x, In x (col Listing.price (r :: rows)) ->
                    (inject_Z (fst price_range) <= x
                     <= inject_Z (snd price_range))%Q).
  { intros x Hx. unfold col in Hx. apply in_map_iff in Hx.
    destruct Hx as (r' & <- & Hr'). now apply Hsound. }
  split; [rewrite Hn; simpl; lia|].
  split; [now rewrite length_map|].
  assert (Hne : col Listing.price (r :: rows) <> []) by discriminate.
  destruct (Series_median_defined _ Hne) as (med & Hmed).
  destruct (Series_quantile_defined _ 0.25 Hne) as (p25 & H25).
  destruct (Series_quantile_defined _ 0.75 Hne) as (p75 & H75).
  rewrite Hmed, H25, H75.
  exists med, p25, p75. repeat split; try reflexivity.
  - exact (proj1 (Series_median_bounds _ _ _ _ Hbounds Hmed)).
  - exact (proj2 (Series_median_bounds _ _ _ _ Hbounds Hmed)).
  - refine (proj1 (Series_quantile_bounds _ _ 0.25 _ _ _ Hbounds H25)).
    split; unfold Qle; simpl; lia.
  - refine (proj2 (Series_quantile_bounds _ _ 0.25 _ _ _ Hbounds H25)).
    split; unfold Qle; simpl; lia.
  - refine (proj1 (Series_quantile_bounds _ _ 0.75 _ _ _ Hbounds H75)).
    split; unfold Qle; simpl; lia.
  - refine (proj2 (Series_quantile_bounds _ _ 0.75 _ _ _ Hbounds H75)).
    split; unfold Qle; simpl; lia.
Qed.

(** ** The tabs "Price Filter" and "Map View" side by side *)

(** X16.  For the same values of the sidebar widgets the tabs "Map View" and
    "Price Filter" agree: a map is drawn exactly when the table is written,
    with one point per row of the table, as many as the total written, and
    with a centre that is defined; one tab warns exactly when the other
    does, and one reports an exception exactly when the other reports the
    same exception. *)
Theorem map_and_table_agree {E : Type}
    (re_compile : string -> E + (string -> bool)) (airbnb_data : DataFrame)
    (price_range : Z * Z) (chosen_neighborhoods : list string)
    (chosen_room_type : string) (availability_range : Z * Z)
    (min_reviews : Z) (search_name : string) :
  (forall deck,
      map_view_tab re_compile airbnb_data price_range chosen_neighborhoods
                   chosen_room_type availability_range min_reviews search_name
      = st_content deck ->
      exists content lat lon,
        price_filter_tab re_compile airbnb_data price_range
                         chosen_neighborhoods chosen_room_type
                         availability_range min_reviews search_name
        = st_content content /\
        List.length (layer_positions deck) = total content /\
        List.length (layer_positions deck)
        = List.length (listings_table content) /\
        (0 < List.length (layer_positions deck))%nat /\
        view_latitude deck = Some lat /\ view_longitude deck = Some lon) /\
  (forall content,
      price_filter_tab re_compile airbnb_data price_range
                       chosen_neighborhoods chosen_room_type
                       availability_range min_reviews search_name
      = st_content content ->
      exists deck,
        map_view_tab re_compile airbnb_data price_range chosen_neighborhoods
                     chosen_room_type availability_range min_reviews
                     search_name
        = st_content deck) /\
  (map_view_tab re_compile airbnb_data price_range chosen_neighborhoods
                chosen_room_type availability_range min_reviews search_name
   = st_warning "No data available for map view." <->
   price_filter_tab re_compile airbnb_data price_range chosen_neighborhoods
                    chosen_room_type availability_range min_reviews
                    search_name
   = st_warning "No results match your filters.") /\
  (forall err,
      map_view_tab re_compile airbnb_data price_range chosen_neighborhoods
                   chosen_room_type availability_range min_reviews search_name
      = st_error "Error generating map: " err <->
      price_filter_tab re_compile airbnb_data price_range
                       chosen_neighborhoods chosen_room_type
                       availability_range min_reviews search_name
      = st_error "Error filtering data: " err).
Proof.
  unfold map_view_tab, price_filter_tab.
  destruct (sidebar_call _ _ _ _ _ _ _ _) as [e|[[rows avg] n]] eqn:Hcall.
  - repeat split; try discriminate; intros H; congruence.
  - unfold sidebar_call in Hcall.
    destruct (apply_filters_inv _ _ _ _ _ _ _ _ _ _ _ _ _ Hcall)
      as (_ & _ & _ & Hs).
    unfold summary in Hs. injection Hs as _ Hn.
    destruct rows as [|r rows]; cbn [empty].
    + repeat split; try discriminate; intros H; discriminate.
    + split; [|repeat split; try discriminate; eauto].
      match goal with
      | |- forall deck, st_content ?d = _ -> _ => set (dk := d)
      end.
      intros deck H. assert (Hd : deck = dk) by congruence.
      clear H. subst deck.
      destruct (Series_mean_spec (col Listing.latitude (r :: rows)))
        as (lat & Hlat & _); [discriminate|].
      destruct (Series_mean_spec (col Listing.longitude (r :: rows)))
        as (lon & Hlon & _); [discriminate|].
      eexists. exists lat, lon. split; [reflexivity|].
      unfold dk.
      cbn [layer_positions view_latitude view_longitude total
           listings_table].
      rewrite !length_map. rewrite Hn.
      repeat split; try assumption. cbn [List.length]. lia.
Qed.

(** ** The further properties at the example dataset *)

Lemma apply_filters_returns_passing_rows_witness :
  In cozy_loft [cozy_loft] <->
  In cozy_loft example /\
  (50 <= Listing.price cozy_loft <= 200)%Q /\
  (0 <= Listing.availability_365 cozy_loft <= 365)%Z /\
  (0 <= Listing.number_of_reviews cozy_loft)%Z /\
  (forall nbs, Some ["Back Bay"] = Some nbs -> nbs <> [] ->
               In (Listing.neighbourhood cozy_loft) nbs) /\
  (forall rt, None = Some rt -> rt <> "" ->
              Listing.room_type cozy_loft = rt) /\
  (forall pat, Some "loft" = Some pat -> pat <> "" ->
               exists found v, py_re_compile pat = inr found /\
                               Listing.name cozy_loft = Some v /\
                               found v = true).
Proof.
  apply (apply_filters_returns_passing_rows
           py_re_compile example 50 200 (Some ["Back Bay"]) None 0 365 0
           (Some "loft") [cozy_loft] (Some 120%Q) 1%nat).
  reflexivity.
Defined.

Lemma neighbourhood_list_is_a_set_witness :
  apply_filters py_re_compile three_listings 0 200
                (Some ["Allston"; "Back Bay"]) None 0 365 0 None
  = apply_filters py_re_compile three_listings 0 200
                  (Some ["Back Bay"; "Allston"; "Back Bay"]) None 0 365 0 None.
Proof.
  apply (neighbourhood_list_is_a_set py_re_compile three_listings 0 200
           ["Allston"; "Back Bay"] ["Back Bay"; "Allston"; "Back Bay"]).
  intros x. simpl. tauto.
Defined.

Lemma neighbourhood_list_covering_dataset_witness :
  apply_filters py_re_compile three_listings 50 200
                (Some ["Back Bay"; "Allston"]) None 0 365 0 None
  = apply_filters py_re_compile three_listings 50 200 None None 0 365 0 None.
Proof.
  apply (neighbourhood_list_covering_dataset py_re_compile three_listings
           50 200 ["Back Bay"; "Allston"]).
  intros r [<-|[<-|[<-|[]]]]; simpl; tauto.
Defined.

Lemma average_within_integer_price_bounds_witness :
  exists m, Some (175 # 2)%Q = Some m /\
            (inject_Z 50 <= m <= inject_Z 200)%Q.
Proof.
  apply (average_within_integer_price_bounds py_re_compile three_listings
           50 200 None None 0 365 0 None [cozy_loft; unnamed]
           (Some (175 # 2)%Q) 2%nat).
  - reflexivity.
  - discriminate.
Defined.

Lemma refining_a_result_witness :
  apply_filters py_re_compile [cozy_loft; unnamed] 100 150 None
                (Some "Entire home/apt") 0 365 5 (Some "loft")
  = apply_filters py_re_compile three_listings 100 150 None
                  (Some "Entire home/apt") 0 365 5 (Some "loft").
Proof.
  apply (refining_a_result py_re_compile three_listings 100 150 50 200
           None None (Some "Entire home/apt") None 0 365 5 0 365 0
           (Some "loft") None [cozy_loft; unnamed] (Some (175 # 2)%Q) 2%nat);
    try (unfold Qle; simpl; lia); try lia;
    try (left; reflexivity); try (right; reflexivity); reflexivity.
Defined.

Lemma apply_filters_commute_witness :
  apply_filters py_re_compile [cozy_loft; unnamed] 0 200
                (Some ["Allston"]) None 0 365 0 None
  = apply_filters py_re_compile [shared_room; unnamed] 50 200
                  None None 0 365 0 None.
Proof.
  apply (apply_filters_commute py_re_compile three_listings 50 200 0 200
           None (Some ["Allston"]) None None 0 365 0 0 365 0 None None
           [cozy_loft; unnamed] [shared_room; unnamed]
           (Some (175 # 2)%Q) (Some (95 # 2)%Q) 2%nat 2%nat);
    reflexivity.
Defined.

Lemma apply_filters_app_witness :
  exists m m1 m2,
    Some 120%Q = Some m1 /\ Some 55%Q = Some m2 /\
    apply_filters py_re_compile ([cozy_loft] ++ [shared_room; unnamed])
                  50 200 None None 0 365 0 None
    = inr ([cozy_loft] ++ [unnamed], Some m, (1 + 1)%nat) /\
    (m * inject_Z (Z.of_nat (1 + 1))
     == m1 * inject_Z (Z.of_nat 1) + m2 * inject_Z (Z.of_nat 1))%Q.
Proof.
  apply (apply_filters_app py_re_compile [cozy_loft] [shared_room; unnamed]
           50 200 None None 0 365 0 None [cozy_loft] [unnamed]
           (Some 120%Q) (Some 55%Q) 1%nat 1%nat);
    reflexivity.
Defined.

Lemma overall_average_between_extreme_neighborhoods_witness :
  exists k_lo m_lo k_hi m_hi,
    cheapest_neighborhood example = Some k_lo /\
    priciest_neighborhood example = Some k_hi /\
    In (k_lo, Some m_lo) (groupby_neighbourhood_price_mean example) /\
    In (k_hi, Some m_hi) (groupby_neighbourhood_price_mean example) /\
    (m_lo <= 160 # 2 <= m_hi)%Q.
Proof.
  apply (overall_average_between_extreme_neighborhoods example (160 # 2)%Q).
  - intros r [<-|[<-|[]]]; [exists 120%Z | exists 40%Z]; reflexivity.
  - reflexivity.
Defined.

Lemma neighborhood_bars_are_dashboard_means_witness :
  [("Allston", Some 40%Q)]
  = filter (fun kv => existsb (String.eqb (fst kv)) ["Allston"; "Fenway"])
           (groupby_neighbourhood_price_mean example).
Proof.
  apply (neighborhood_bars_are_dashboard_means (E := re_exn) example
           ["Allston"; "Fenway"] [("Allston", Some 40%Q)]).
  reflexivity.
Defined.

Lemma room_chart_of_one_type_witness :
  room_avg example "Private room"
  = filter (fun kv => String.eqb (fst kv) "Private room")
           (room_avg example "All") /\
  room_avg example "Private room"
  = if existsb (fun r => String.eqb (Listing.room_type r) "Private room")
               example
    then [("Private room",
           Series_mean
             (col Listing.price
                  (filter (fun r => String.eqb (Listing.room_type r)
                                               "Private room")
                          example)))]
    else [].
Proof.
  apply (room_chart_of_one_type example "Private room"). discriminate.
Defined.

Lemma untouched_sidebar_filters_by_price_only_witness :
  sidebar_call py_re_compile example (50, 300)%Z
               (unique (col Listing.neighbourhood example)) "All"
               (0, 365)%Z 0 ""
  = inr (summary
           (filter (fun r =>
                      Qle_bool (inject_Z (fst (50, 300)%Z)) (Listing.price r)
                      && Qle_bool (Listing.price r)
                                  (inject_Z (snd (50, 300)%Z)))
                   example)).
Proof.
  apply (untouched_sidebar_filters_by_price_only py_re_compile example
           (50, 300)%Z).
  exact example_well_formed.
Defined.

Lemma price_statistics_within_slider_witness :
  (0 < total allston_content)%nat /\
  total allston_content = List.length (listings_table allston_content) /\
  exists median p25 p75,
    median_price allston_content = Some median /\
    percentile_25 allston_content = Some p25 /\
    percentile_75 allston_content = Some p75 /\
    (inject_Z (fst (0, 200)%Z) <= median <= inject_Z (snd (0, 200)%Z))%Q /\
    (inject_Z (fst (0, 200)%Z) <= p25 <= inject_Z (snd (0, 200)%Z))%Q /\
    (inject_Z (fst (0, 200)%Z) <= p75 <= inject_Z (snd (0, 200)%Z))%Q.
Proof.
  apply (price_statistics_within_slider py_re_compile example (0, 200)%Z
           ["Allston"] "All" (0, 365)%Z 0 "" allston_content).
  reflexivity.
Defined.

Lemma apply_filters_returns_without_search_text_witness :
  apply_filters py_re_compile three_listings 50 200 None None 0 365 0
                (Some "")
  = inr (summary
           (filter (keep 50 200 None None 0 365 0 None) three_listings)).
Proof.
  apply (apply_filters_returns_without_search_text
           py_re_compile three_listings 50 200 None None 0 365 0 (Some "")).
  reflexivity.
Defined.
